(** * setuptools-qmesh: the environment checks and the egg-info writers

    A shallow embedding of [setuptools_qmesh/dist.py],
    [setuptools_qmesh/command/check_gmsh.py],
    [setuptools_qmesh/command/check_qgis.py] and of [write_git_sha_key] from
    [setuptools_qmesh/command/egg_info.py].

    The commands are stateful (they assign attributes of the command object
    and of the shared distribution object, set environment variables, log
    through [announce]) and fallible (they raise).  They are written here in
    a state-and-exception monad in which a raised exception keeps the state
    reached so far, as in Python.  Everything the commands ask of the machine
    they run on (the file system, [which], imports, the gmsh binary, the git
    repository) is read from a [Host] record. *)

From Stdlib Require Import String Ascii List ZArith Bool Arith Lia.
Import ListNotations.

Open Scope string_scope.

(* ===================================================================== *)
(** ** Python strings

    A [str] is modelled by a [string] whose characters are the code points
    below 256. *)
(* ===================================================================== *)

Module PyStr.

Definition LF : ascii := "010"%char.
Definition SQUOTE : ascii := "'"%char.
Definition DQUOTE : ascii := ascii_of_nat 34.
Definition BACKSLASH : ascii := ascii_of_nat 92.

(** [str.isspace] on one code point below 256. *)
Definition isspace (c : ascii) : bool :=
  let n := nat_of_ascii c in
  (((9 <=? n) && (n <=? 13)) || ((28 <=? n) && (n <=? 32))
   || (n =? 133) || (n =? 160))%nat.

Fixpoint lstrip (s : string) : string :=
  match s with
  | EmptyString => EmptyString
  | String c s' => if isspace c then lstrip s' else s
  end.

Fixpoint rstrip (s : string) : string :=
  match s with
  | EmptyString => EmptyString
  | String c s' =>
      match rstrip s' with
      | EmptyString => if isspace c then EmptyString else String c EmptyString
      | r => String c r
      end
  end.

(** [s.strip()] *)
Definition strip (s : string) : string := rstrip (lstrip s).

(** [s.split(sep)] for a separator of one character: never the empty
    list, and an empty segment between two adjacent separators. *)
Fixpoint split (sep : ascii) (s : string) : list string :=
  match s with
  | EmptyString => [EmptyString]
  | String c s' =>
      if Ascii.eqb c sep then EmptyString :: split sep s'
      else match split sep s' with
           | seg :: rest => String c seg :: rest
           | [] => [String c EmptyString]
           end
  end.

(** [f.readline()] on the whole content of a file read from its start:
    the first line with its line feed, or everything when there is none. *)
Fixpoint readline (s : string) : string :=
  match s with
  | EmptyString => EmptyString
  | String c s' =>
      if Ascii.eqb c LF then String c EmptyString else String c (readline s')
  end.

Fixpoint contains_char (c : ascii) (s : string) : bool :=
  match s with
  | EmptyString => false
  | String d s' => Ascii.eqb c d || contains_char c s'
  end.

Definition hex_digit (n : nat) : ascii :=
  nth n ["0"; "1"; "2"; "3"; "4"; "5"; "6"; "7"; "8"; "9";
         "a"; "b"; "c"; "d"; "e"; "f"]%char "0"%char.

Definition hex_escape (n : nat) : string :=
  String BACKSLASH
    (String "x" (String (hex_digit (n / 16)) (String (hex_digit (n mod 16)) EmptyString))).

(** One character of [repr(s)], for the chosen quote. *)
Definition repr_char (quote c : ascii) : string :=
  let n := nat_of_ascii c in
  if Ascii.eqb c quote || Ascii.eqb c BACKSLASH
  then String BACKSLASH (String c EmptyString)
  else if (n =? 9)%nat then String BACKSLASH "t"
  else if (n =? 10)%nat then String BACKSLASH "n"
  else if (n =? 13)%nat then String BACKSLASH "r"
  else if ((n <? 32) || (n =? 127))%nat then hex_escape n
  else if (n <? 127)%nat then String c EmptyString
  else if ((n <=? 160) || (n =? 173))%nat then hex_escape n
  else String c EmptyString.

Fixpoint repr_body (quote : ascii) (s : string) : string :=
  match s with
  | EmptyString => EmptyString
  | String c s' => repr_char quote c ++ repr_body quote s'
  end.

(** [repr(s)], what [%r] formats: single quotes, unless the string has a
    single quote and no double quote. *)
Definition repr (s : string) : string :=
  let quote :=
    if contains_char SQUOTE s && negb (contains_char DQUOTE s)
    then DQUOTE else SQUOTE in
  String quote (repr_body quote s ++ String quote EmptyString).

(** [s.rfind(c)] for one character: the last index, or -1. *)
Fixpoint rfind_from (c : ascii) (s : string) (i : Z) (last : Z) : Z :=
  match s with
  | EmptyString => last
  | String d s' => rfind_from c s' (i + 1) (if Ascii.eqb c d then i else last)
  end.

Definition rfind (c : ascii) (s : string) : Z := rfind_from c s 0 (-1).

(** [s[i:j]] for non-negative [i] and [j]. *)
Definition slice (s : string) (i j : Z) : string :=
  substring (Z.to_nat i) (Z.to_nat (j - i)) s.

(** UTF-8 decoding of a byte string into a [str] of this model: a byte
    below 128 is its own character, and the two-byte sequences led by 0xC2
    and 0xC3 are the code points 128 to 255.  [None] on anything else:
    malformed input, or text with a code point that this model of [str]
    does not have. *)
Fixpoint decode_utf8_below_256 (b : string) : option string :=
  match b with
  | EmptyString => Some EmptyString
  | String c rest =>
      let n := nat_of_ascii c in
      if (n <? 128)%nat then option_map (String c) (decode_utf8_below_256 rest)
      else
        match rest with
        | EmptyString => None
        | String d rest' =>
            let m := nat_of_ascii d in
            if (((n =? 194) || (n =? 195)) && (128 <=? m) && (m <? 192))%nat
            then option_map
                   (String (ascii_of_nat (if (n =? 194)%nat then m else m + 64)))
                   (decode_utf8_below_256 rest')
            else None
        end
  end.

End PyStr.

(* ===================================================================== *)
(** ** [os.path] on a POSIX host ([posixpath]) *)
(* ===================================================================== *)

Module PosixPath.

Definition SEP : ascii := "/"%char.
Definition EXTSEP : ascii := "."%char.

Definition startswith_sep (b : string) : bool :=
  match b with
  | String c _ => Ascii.eqb c SEP
  | EmptyString => false
  end.

Fixpoint endswith_sep (a : string) : bool :=
  match a with
  | EmptyString => false
  | String c EmptyString => Ascii.eqb c SEP
  | String _ a' => endswith_sep a'
  end.

(** [os.path.join(a, b)] *)
Definition join (a b : string) : string :=
  if startswith_sep b then b
  else if String.eqb a EmptyString || endswith_sep a then a ++ b
  else a ++ String SEP b.

(** The loop of [genericpath._splitext] that skips the leading dots of
    the file name: [fuel] bounds the iterations left. *)
Fixpoint splitext_scan (fuel : nat) (p : string) (filenameIndex dotIndex : Z)
  : string * string :=
  match fuel with
  | O => (p, EmptyString)
  | S fuel' =>
      if (filenameIndex <? dotIndex)%Z then
        if negb (String.eqb (PyStr.slice p filenameIndex (filenameIndex + 1))
                            (String EXTSEP EmptyString))
        then (PyStr.slice p 0 dotIndex,
              PyStr.slice p dotIndex (Z.of_nat (String.length p)))
        else splitext_scan fuel' p (filenameIndex + 1)%Z dotIndex
      else (p, EmptyString)
  end.

(** [os.path.splitext(p)] *)
Definition splitext (p : string) : string * string :=
  let sepIndex := PyStr.rfind SEP p in
  let dotIndex := PyStr.rfind EXTSEP p in
  if (sepIndex <? dotIndex)%Z
  then splitext_scan (S (String.length p)) p (sepIndex + 1)%Z dotIndex
  else (p, EmptyString).

End PosixPath.

(* ===================================================================== *)
(** ** Exceptions, log levels, events *)
(* ===================================================================== *)

(** The exception classes the commands raise, catch or let through. *)
Inductive exn : Type :=
| DistutilsSetupError (msg : string)
| DistutilsPlatformError (msg : string)
| CalledProcessError (returncode : Z) (cmd : list string)
| ModuleNotFoundError (name : string)
| ImportError (msg : string)
| AttributeError (msg : string)
| UnboundLocalError (name : string)
| TypeError (msg : string)
| IndexError (msg : string)
| ValueError (msg : string)
| OSError (msg : string)
| InvalidGitRepositoryError (path : string)
| UnicodeDecodeError (msg : string).

(** [except ModuleNotFoundError] *)
Definition is_ModuleNotFoundError (e : exn) : bool :=
  match e with ModuleNotFoundError _ => true | _ => false end.

(** [except ImportError]: [ModuleNotFoundError] is a subclass of it. *)
Definition is_ImportError (e : exn) : bool :=
  match e with ImportError _ | ModuleNotFoundError _ => true | _ => false end.

(** [except AttributeError] *)
Definition is_AttributeError (e : exn) : bool :=
  match e with AttributeError _ => true | _ => false end.

(** [except subprocess.CalledProcessError] *)
Definition is_CalledProcessError (e : exn) : bool :=
  match e with CalledProcessError _ _ => true | _ => false end.

(** [except git.InvalidGitRepositoryError] *)
Definition is_InvalidGitRepositoryError (e : exn) : bool :=
  match e with InvalidGitRepositoryError _ => true | _ => false end.

(** The two error classes of [distutils.errors] that the commands raise on
    purpose. *)
Definition is_distutils_error (e : exn) : bool :=
  match e with
  | DistutilsSetupError _ | DistutilsPlatformError _ => true
  | _ => false
  end.

(** [distutils.log] levels. *)
Inductive log_level : Type := DEBUG | INFO | WARN | ERROR | FATAL.

(** What a command does to the outside, in the order it does it. *)
Inductive event : Type :=
| Announce (level : log_level) (msg : string)
| CheckOutput (argv : list string)
| ImportModule (name : string)
| SetEnviron (key value : string)
| QgsApplicationNew
| SetPrefixPath (prefix : string) (useDefaultPaths : bool)
| InitQgis
| TemporaryFileOpen
| Popen (argv : list string)
| TemporaryFileClose
| WriteOrDeleteFile (what filename data : string).

(** Probing the host for a tool: a PATH lookup or a module import. *)
Definition is_probe (ev : event) : bool :=
  match ev with
  | CheckOutput _ | ImportModule _ => true
  | _ => false
  end.

(* ===================================================================== *)
(** ** The host *)
(* ===================================================================== *)

(** The object [qgis_core.QgsApplication([], False)] returns: each method
    either returns or raises. *)
Record QgsApplication : Type := {
  setPrefixPath : string -> bool -> option exn;
  initQgis : option exn
}.

(** The module [qgis.core].  [QGis] is the class that holds the version in
    QGIS 2 and [Qgis] the one of QGIS 3: [None] when the module has no such
    attribute, [Some None] when the class is there without [QGIS_VERSION]. *)
Record QgisCore : Type := {
  QgsApplication_call : exn + QgsApplication;
  QGis : option (option string);
  Qgis : option (option string)
}.

(** The package [qgis], of which the command reads [__path__]. *)
Record QgisPackage : Type := { qgis__path__ : list string }.

(** The object [git.Repo(".")] returns. *)
Record Repo : Type := {
  head_object_hexsha : exn + string;
  is_dirty : exn + bool
}.

Record Host : Type := {
  (** [platform.system()] *)
  platform_system : string;
  (** [os.path.exists], [os.path.isdir], [os.path.isfile] *)
  path_exists : string -> bool;
  path_isdir : string -> bool;
  path_isfile : string -> bool;
  (** [subprocess.check_output(argv).decode('utf-8')] *)
  check_output : list string -> exn + string;
  (** [importlib.import_module('qgis')] and [('qgis.core')] *)
  import_qgis : exn + QgisPackage;
  import_qgis_core : exn + QgisCore;
  (** [subprocess.Popen(argv, stdout=f, stderr=f)] followed by [wait()]:
      the return code and what the process wrote to [f]. *)
  popen_wait : list string -> exn + (Z * string);
  (** [b.decode("utf-8")] for the bytes [b] read back from [f]: the text,
      or the exception ([UnicodeDecodeError]) that the decoding raises. *)
  decode_utf8 : string -> exn + string;
  (** [git.Repo(".")] *)
  git_Repo : exn + Repo
}.

(* ===================================================================== *)
(** ** The state of a packaging run *)
(* ===================================================================== *)

Module Distribution.
(** The attributes of the distribution object that this package adds. *)
Record t : Type := {
  gmsh_bin_path : option string;
  qgis_path : option string;
  include_git_sha_key : bool;
  include_full_license : bool;
  include_author_ids : bool
}.

Definition set_gmsh_bin_path (v : option string) (d : t) : t :=
  {| gmsh_bin_path := v; qgis_path := qgis_path d;
     include_git_sha_key := include_git_sha_key d;
     include_full_license := include_full_license d;
     include_author_ids := include_author_ids d |}.

Definition set_qgis_path (v : option string) (d : t) : t :=
  {| gmsh_bin_path := gmsh_bin_path d; qgis_path := v;
     include_git_sha_key := include_git_sha_key d;
     include_full_license := include_full_license d;
     include_author_ids := include_author_ids d |}.
End Distribution.

(** One distribution object is shared by every command; each command object
    has its own path attribute; [os.environ] and the outside are shared. *)
Record State : Type := {
  distribution : Distribution.t;
  check_gmsh_self : option string;   (* [CheckGmsh.gmsh_bin_path] *)
  check_qgis_self : option string;   (* [CheckQgis.qgis_path] *)
  environ : string -> option string;
  events : list event
}.

Definition set_distribution (d : Distribution.t) (s : State) : State :=
  {| distribution := d; check_gmsh_self := check_gmsh_self s;
     check_qgis_self := check_qgis_self s; environ := environ s;
     events := events s |}.

Definition set_check_gmsh_self (v : option string) (s : State) : State :=
  {| distribution := distribution s; check_gmsh_self := v;
     check_qgis_self := check_qgis_self s; environ := environ s;
     events := events s |}.

Definition set_check_qgis_self (v : option string) (s : State) : State :=
  {| distribution := distribution s; check_gmsh_self := check_gmsh_self s;
     check_qgis_self := v; environ := environ s; events := events s |}.

Definition set_environ (k v : string) (s : State) : State :=
  {| distribution := distribution s; check_gmsh_self := check_gmsh_self s;
     check_qgis_self := check_qgis_self s;
     environ := fun k' => if String.eqb k' k then Some v else environ s k';
     events := events s |}.

Definition add_event (ev : event) (s : State) : State :=
  {| distribution := distribution s; check_gmsh_self := check_gmsh_self s;
     check_qgis_self := check_qgis_self s; environ := environ s;
     events := events s ++ [ev] |}.

(* ===================================================================== *)
(** ** The monad: state, and exceptions that keep the state *)
(* ===================================================================== *)

Definition M (A : Type) : Type := State -> (exn + A) * State.

Definition ret {A} (a : A) : M A := fun s => (inr a, s).

Definition bind {A B} (m : M A) (k : A -> M B) : M B :=
  fun s =>
    match m s with
    | (inr a, s') => k a s'
    | (inl e, s') => (inl e, s')
    end.

Definition raise {A} (e : exn) : M A := fun s => (inl e, s).

(** [try: body  except <catches>: handler]: an exception the clause does not
    name goes on; whatever [body] did to the state before raising stays. *)
Definition try_except {A} (body : M A) (catches : exn -> bool) (handler : M A)
  : M A :=
  fun s =>
    match body s with
    | (inr a, s') => (inr a, s')
    | (inl e, s') => if catches e then handler s' else (inl e, s')
    end.

Definition gets {A} (f : State -> A) : M A := fun s => (inr (f s), s).
Definition modify (f : State -> State) : M unit := fun s => (inr tt, f s).
Definition emit (ev : event) : M unit := modify (add_event ev).

(** A call into the host that returns or raises. *)
Definition lift {A} (r : exn + A) : M A :=
  match r with inl e => raise e | inr a => ret a end.

(** A call for its effect only. *)
Definition lift_unit (r : option exn) : M unit :=
  match r with Some e => raise e | None => ret tt end.

Declare Scope py_scope.
Delimit Scope py_scope with py.
Notation "x <- m ;; k" := (bind m (fun x => k))
  (at level 100, m at next level, right associativity) : py_scope.
Notation "m ;; k" := (bind m (fun _ => k))
  (at level 100, right associativity) : py_scope.
Open Scope py_scope.

(** [Command.announce] and [Distribution.announce] both hand the message to
    [distutils.log]. *)
Definition announce (msg : string) (level : log_level) : M unit :=
  emit (Announce level msg).

(** The outcome and the final state of a command run from [s]. *)
Definition outcome {A} (m : M A) (s : State) : exn + A := fst (m s).
Definition final {A} (m : M A) (s : State) : State := snd (m s).

(** What [m] did to the outside: the events after those of [s]. *)
Definition new_events {A} (m : M A) (s : State) : list event :=
  skipn (length (events s)) (events (final m s)).

(* ===================================================================== *)
(** ** [setuptools_qmesh/dist.py] *)
(* ===================================================================== *)

Module Dist.

(** ["%r must be a path (%r is not a path)" % (attr, value)] *)
Definition not_a_path_msg (attr value : string) : string :=
  PyStr.repr attr ++ " must be a path (" ++ PyStr.repr value ++ " is not a path)".

(** [assert_path(dist, attr, value)].  [value] is the Python value handed
    in: [None] makes [path.exists] raise a [TypeError]. *)
Definition assert_path (h : Host) (attr : string) (value : option string)
  : M unit :=
  match value with
  | None => raise (TypeError "stat: path should be string, not NoneType")
  | Some v =>
      if negb (path_exists h v) then
        let msg := not_a_path_msg attr v in
        announce msg FATAL ;;
        raise (DistutilsSetupError msg)
      else ret tt
  end.

End Dist.

(* ===================================================================== *)
(** ** [setuptools_qmesh/command/check_gmsh.py] *)
(* ===================================================================== *)

Module CheckGmsh.

Definition initialize_options : M unit := modify (set_check_gmsh_self None).

(** The body of the [try] of [finalize_options]: the two [if]s on
    [platform.system()].  The result is the local variable [gmsh_bin_path]
    after them, [None] when neither assigned it. *)
Definition locate (h : Host) : M (option string) :=
  local <- (if String.eqb (platform_system h) "Linux"
               || String.eqb (platform_system h) "Darwin"
            then
              emit (CheckOutput ["which"; "gmsh"]) ;;
              out <- lift (check_output h ["which"; "gmsh"]) ;;
              ret (Some out)
            else ret None) ;;
  if String.eqb (platform_system h) "Windows" then
    emit (CheckOutput ["where.exe"; "gmsh"]) ;;
    out <- lift (check_output h ["where.exe"; "gmsh"]) ;;
    ret (Some out)
  else ret local.

Definition not_located_msg : string := "Could not locate a gmsh installation.".

Definition finalize_options (h : Host) : M unit :=
  self_path <- gets check_gmsh_self ;;
  (match self_path with
   | None =>
       dist_path <- gets (fun s => Distribution.gmsh_bin_path (distribution s)) ;;
       match dist_path with
       | None =>
           announce ("No specification of gmsh path is present."
                     ++ " Will try to detect a gmsh installation") ERROR ;;
           gmsh_bin_path <-
             try_except (locate h) is_CalledProcessError
               (announce not_located_msg FATAL ;;
                raise (DistutilsSetupError
                         ("Qmesh uses gmsh as a mesh generator, hence gmsh must be installed. "
                          ++ not_located_msg))) ;;
           match gmsh_bin_path with
           | None => raise (UnboundLocalError "gmsh_bin_path")
           | Some out => modify (set_check_gmsh_self (Some (PyStr.strip out)))
           end
       | Some p => modify (set_check_gmsh_self (Some p))
       end
   | Some _ => ret tt
   end) ;;
  value <- gets check_gmsh_self ;;
  Dist.assert_path h "gmsh_bin_path" value.

(** [run].  [subprocess.os.path] is [posixpath] here, on every platform
    name.  The output of the binary is the bytes of the temporary file: the
    first line is read from them and then decoded, after the test of the
    return code. *)
Definition run (h : Host) : M unit :=
  given <- gets check_gmsh_self ;;
  match given with
  | None => raise (TypeError "stat: path should be string, not NoneType")
  | Some dir_or_file =>
      (if path_isdir h dir_or_file then
         modify (set_check_gmsh_self (Some (PosixPath.join dir_or_file "gmsh"))) ;;
         if negb (path_isfile h (PosixPath.join dir_or_file "gmsh")) then
           let msg := "Could not find gmsh at " ++ PosixPath.join dir_or_file "gmsh" in
           announce msg FATAL ;;
           raise (DistutilsSetupError msg)
         else ret tt
       else ret tt) ;;
      emit TemporaryFileOpen ;;
      self_path <- gets check_gmsh_self ;;
      let gmsh_bin_path := match self_path with Some p => p | None => dir_or_file end in
      emit (Popen [gmsh_bin_path; "--version"]) ;;
      gmsh_found <- lift (popen_wait h [gmsh_bin_path; "--version"]) ;;
      let (returncode, gmsh_stdout) := gmsh_found in
      if negb (Z.eqb returncode 0) then
        let msg := "Could not find gmsh at " ++ gmsh_bin_path in
        announce msg FATAL ;;
        raise (DistutilsSetupError msg)
      else
        (* [readline] on the bytes of the file, then [decode] *)
        gmsh_version <- lift (decode_utf8 h (PyStr.readline gmsh_stdout)) ;;
        announce ("Found gmsh version " ++ PyStr.strip gmsh_version
                  ++ " at " ++ gmsh_bin_path) INFO ;;
        emit TemporaryFileClose ;;
        modify (fun s =>
                  set_distribution
                    (Distribution.set_gmsh_bin_path (Some gmsh_bin_path)
                       (distribution s)) s)
  end.

End CheckGmsh.

(* ===================================================================== *)
(** ** [setuptools_qmesh/command/check_qgis.py] *)
(* ===================================================================== *)

Module CheckQgis.

Definition initialize_options : M unit := modify (set_check_qgis_self None).

(** The [for] loop of [finalize_options] over the zipped path segments:
    join while the two segments are equal, [break] at the first pair that
    differs. *)
Fixpoint walk (qgis_path : string) (pairs : list (string * string)) : string :=
  match pairs with
  | [] => qgis_path
  | (python_element, bin_element) :: rest =>
      if String.eqb python_element bin_element
      then walk (PosixPath.join qgis_path python_element) rest
      else qgis_path
  end.

(** The value of the local [qgis_path] after the loop. *)
Definition derive_qgis_path (qgis_python_path qgis_bin_path : string) : string :=
  walk "/" (combine (PyStr.split PosixPath.SEP qgis_python_path)
                    (PyStr.split PosixPath.SEP qgis_bin_path)).

(** The body of the [try] of [finalize_options]. *)
Definition locate (h : Host) : M unit :=
  emit (ImportModule "qgis") ;;
  qgis <- lift (import_qgis h) ;;
  qgis_python_path <-
    match qgis__path__ qgis with
    | first :: _ => ret first
    | [] => raise (IndexError "list index out of range")
    end ;;
  emit (CheckOutput ["which"; "qgis"]) ;;
  qgis_bin_path <- lift (check_output h ["which"; "qgis"]) ;;
  modify (set_check_qgis_self
            (Some (derive_qgis_path qgis_python_path qgis_bin_path))).

Definition not_installed_msg : string :=
  "Host system does not appear to have a qgis installation.".

Definition finalize_options (h : Host) : M unit :=
  self_path <- gets check_qgis_self ;;
  (match self_path with
   | None =>
       dist_path <- gets (fun s => Distribution.qgis_path (distribution s)) ;;
       match dist_path with
       | None =>
           announce ("No specification of qgis path is present."
                     ++ " Will try to detect a qgis installation") ERROR ;;
           try_except (locate h) is_ModuleNotFoundError
             (announce not_installed_msg FATAL ;;
              raise (DistutilsPlatformError
                       ("Qmesh uses qgis for GIS operations, hence qgis must be installed. "
                        ++ not_installed_msg)))
       | Some p => modify (set_check_qgis_self (Some p))
       end
   | Some _ => ret tt
   end) ;;
  value <- gets check_qgis_self ;;
  Dist.assert_path h "qgis-path" value.

(** [cls.QGIS_VERSION] for [cls] one of the two classes of [qgis.core]. *)
Definition getattr_QGIS_VERSION (cls_name : string) (cls : option (option string))
  : M string :=
  match cls with
  | None =>
      raise (AttributeError ("module 'qgis.core' has no attribute "
                             ++ PyStr.repr cls_name))
  | Some None =>
      raise (AttributeError ("type object " ++ PyStr.repr cls_name
                             ++ " has no attribute 'QGIS_VERSION'"))
  | Some (Some version) => ret version
  end.

(** The inner [try] of [run]: [qgis_core.QGis.QGIS_VERSION], and on
    [AttributeError] [qgis_core.Qgis.QGIS_VERSION]. *)
Definition lookup_version (qgis_core : QgisCore) : M string :=
  try_except (getattr_QGIS_VERSION "QGis" (QGis qgis_core)) is_AttributeError
    (getattr_QGIS_VERSION "Qgis" (Qgis qgis_core)).

(** The body of the outer [try] of [run]. *)
Definition verify (h : Host) (self_path : string) : M unit :=
  modify (set_environ "QT_LOGGING_RULES" "qt5ct.debug=false") ;;
  emit (SetEnviron "QT_LOGGING_RULES" "qt5ct.debug=false") ;;
  modify (set_environ "QT_QPA_PLATFORM" "offscreen") ;;
  emit (SetEnviron "QT_QPA_PLATFORM" "offscreen") ;;
  emit (ImportModule "qgis.core") ;;
  qgis_core <- lift (import_qgis_core h) ;;
  emit QgsApplicationNew ;;
  qgis_app <- lift (QgsApplication_call qgis_core) ;;
  emit (SetPrefixPath self_path true) ;;
  lift_unit (setPrefixPath qgis_app self_path true) ;;
  emit InitQgis ;;
  lift_unit (initQgis qgis_app) ;;
  qgis_version <- lookup_version qgis_core ;;
  announce ("Found QGIS version " ++ qgis_version ++ " at " ++ self_path) INFO.

Definition run (h : Host) : M unit :=
  given <- gets check_qgis_self ;;
  match given with
  | None => raise (TypeError "can only concatenate str (not NoneType) to str")
  | Some self_path =>
      announce ("Looking for qgis installation at " ++ self_path) INFO ;;
      try_except (verify h self_path) is_ModuleNotFoundError
        (* the handler builds the exception and drops it: there is no
           [raise] in front of [DistutilsPlatformError(msg)] *)
        (announce ("Could not find qgis at " ++ self_path) FATAL) ;;
      modify (fun s =>
                set_distribution
                  (Distribution.set_qgis_path (Some self_path) (distribution s)) s)
  end.

End CheckQgis.

(** The files of the directory the packaging run works in:
    [open(name).read()] returns the text or raises. *)
Record LocalFiles : Type := {
  open_read : string -> exn + string
}.

(* ===================================================================== *)
(** ** [setuptools_qmesh/command/egg_info.py] *)
(* ===================================================================== *)

Module EggInfo.

Definition placeholder : string := "Could not obtain git sha key.".

Definition dirty_annotation : string :=
  " + uncommited changes (built from dirty repository).".

(** The body of the inner [try] of [write_git_sha_key]. *)
Definition read_git_sha_key (h : Host) : M string :=
  repo <- lift (git_Repo h) ;;
  git_sha_key <- lift (head_object_hexsha repo) ;;
  dirty <- lift (is_dirty repo) ;;
  if dirty then ret (git_sha_key ++ dirty_annotation) else ret git_sha_key.

(** [write_git_sha_key(cmd, basename, filename)].  The writing itself,
    [cmd.write_or_delete_file], is setuptools' and is recorded as an
    event. *)
Definition write_git_sha_key (h : Host) (basename filename : string) : M unit :=
  enabled <- gets (fun s => Distribution.include_git_sha_key (distribution s)) ;;
  if enabled then
    git_sha_key <-
      try_except
        (try_except (read_git_sha_key h) is_InvalidGitRepositoryError
           (ret placeholder))
        is_ImportError
        (ret placeholder) ;;
    let argname := fst (PosixPath.splitext basename) in
    emit (WriteOrDeleteFile argname filename git_sha_key)
  else ret tt.

(** [write_full_license(cmd, basename, filename)] *)
Definition write_full_license (fs : LocalFiles) (basename filename : string)
  : M unit :=
  enabled <- gets (fun s => Distribution.include_full_license (distribution s)) ;;
  if enabled then
    let argname := fst (PosixPath.splitext basename) in
    full_license_statement <- lift (open_read fs basename) ;;
    emit (WriteOrDeleteFile argname filename full_license_statement)
  else ret tt.

(** [write_author_ids(cmd, basename, filename)] *)
Definition write_author_ids (fs : LocalFiles) (basename filename : string)
  : M unit :=
  enabled <- gets (fun s => Distribution.include_author_ids (distribution s)) ;;
  if enabled then
    let argname := fst (PosixPath.splitext basename) in
    author_ids <- lift (open_read fs basename) ;;
    emit (WriteOrDeleteFile argname filename author_ids)
  else ret tt.

(** [if value:] for an attribute that is [None] or a [str]. *)
Definition truthy (value : option string) : bool :=
  match value with
  | Some (String _ _) => true
  | _ => false
  end.

(** [write_qgis_path(cmd, basename, filename)].  As in
    [write_git_sha_key], the call of [cmd.write_or_delete_file] is recorded
    as an event: what setuptools does in it, and whether that raises, is
    outside this model. *)
Definition write_qgis_path (basename filename : string) : M unit :=
  qgis_path <- gets (fun s => Distribution.qgis_path (distribution s)) ;;
  if truthy qgis_path then
    let argname := fst (PosixPath.splitext basename) in
    match qgis_path with
    | Some data => emit (WriteOrDeleteFile argname filename data)
    | None => ret tt
    end
  else ret tt.

(** [write_gmsh_bin_path(cmd, basename, filename)], with the same reading
    of [cmd.write_or_delete_file]. *)
Definition write_gmsh_bin_path (basename filename : string) : M unit :=
  gmsh_bin_path <- gets (fun s => Distribution.gmsh_bin_path (distribution s)) ;;
  if truthy gmsh_bin_path then
    let argname := fst (PosixPath.splitext basename) in
    match gmsh_bin_path with
    | Some data => emit (WriteOrDeleteFile argname filename data)
    | None => ret tt
    end
  else ret tt.

End EggInfo.

(* ===================================================================== *)
(** ** [setup.py] *)
(* ===================================================================== *)

Module Setup.

(** The body of the second [try] of [check_env]: the two [if]s on
    [platform.system()], as in [CheckGmsh.finalize_options].  The local
    [gmsh_bin_path] is assigned and never read. *)
Definition locate_gmsh (h : Host) : M unit :=
  (if String.eqb (platform_system h) "Linux"
      || String.eqb (platform_system h) "Darwin"
   then
     emit (CheckOutput ["which"; "gmsh"]) ;;
     _ <- lift (check_output h ["which"; "gmsh"]) ;;
     ret tt
   else ret tt) ;;
  if String.eqb (platform_system h) "Windows" then
    emit (CheckOutput ["where.exe"; "gmsh"]) ;;
    _ <- lift (check_output h ["where.exe"; "gmsh"]) ;;
    ret tt
  else ret tt.

(** [check_env()] *)
Definition check_env (h : Host) : M unit :=
  try_except
    (emit (ImportModule "qgis") ;;
     qgis <- lift (import_qgis h) ;;
     match qgis__path__ qgis with
     | _ :: _ => ret tt
     | [] => raise (IndexError "list index out of range")
     end)
    is_ModuleNotFoundError
    (raise (DistutilsPlatformError
              ("Qmesh uses qgis for GIS operations, hence qgis must be installed. "
               ++ "Host system does not appear to have a qgis installation."))) ;;
  try_except (locate_gmsh h) is_CalledProcessError
    (raise (DistutilsSetupError
              ("Qmesh uses gmsh as a mesh generator, hence gmsh must be installed. "
               ++ "Could not locate a gmsh installation."))).

End Setup.

(* ===================================================================== *)
(** ** Reading the claims

    Definitions that belong to the statements, not to the program. *)
(* ===================================================================== *)

(** The override of a locator: the command attribute when it is set, else
    the distribution attribute. *)
Definition override (command_attr dist_attr : option string) : option string :=
  match command_attr with
  | Some p => Some p
  | None => dist_attr
  end.

(** What the locators announce before they probe. *)
Definition gmsh_probe_announcement : string :=
  "No specification of gmsh path is present. Will try to detect a gmsh installation".

Definition qgis_probe_announcement : string :=
  "No specification of qgis path is present. Will try to detect a qgis installation".

(** The PATH lookup of the gmsh probe on a platform, if it has one. *)
Definition gmsh_lookup_argv (platform : string) : option (list string) :=
  if String.eqb platform "Windows" then Some ["where.exe"; "gmsh"]
  else if String.eqb platform "Linux" || String.eqb platform "Darwin"
       then Some ["which"; "gmsh"]
       else None.

(** The messages of the two errors the locators raise when the probe finds
    nothing. *)
Definition gmsh_not_located_error : exn :=
  DistutilsSetupError
    "Qmesh uses gmsh as a mesh generator, hence gmsh must be installed. Could not locate a gmsh installation.".

Definition qgis_not_installed_error : exn :=
  DistutilsPlatformError
    "Qmesh uses qgis for GIS operations, hence qgis must be installed. Host system does not appear to have a qgis installation.".

(** The first exception that the git calls of [write_git_sha_key] raise on
    a host, if one of them raises. *)
Definition git_failure (h : Host) : option exn :=
  match git_Repo h with
  | inl e => Some e
  | inr repo =>
      match head_object_hexsha repo with
      | inl e => Some e
      | inr _ =>
          match is_dirty repo with
          | inl e => Some e
          | inr _ => None
          end
      end
  end.

(** The exceptions that one of the two [except] clauses of
    [write_git_sha_key] names. *)
Definition handled_by_git_sha_writer (e : exn) : bool :=
  is_InvalidGitRepositoryError e || is_ImportError e.

(** The three platform names the gmsh probe knows. *)
Definition known_platform (name : string) : bool :=
  String.eqb name "Linux" || String.eqb name "Darwin" || String.eqb name "Windows".

(** The longest common prefix of two lists of path segments. *)
Fixpoint common_prefix (xs ys : list string) : list string :=
  match xs, ys with
  | x :: xs', y :: ys' =>
      if String.eqb x y then x :: common_prefix xs' ys' else []
  | _, _ => []
  end.

(** The version a class of [qgis.core] gives, if it gives one. *)
Definition version_of (cls : option (option string)) : option string :=
  match cls with
  | Some (Some version) => Some version
  | _ => None
  end.

(** The lookup in the order the specification words it: the newer name
    [Qgis] first, the older name [QGis] as the fallback. *)
Definition lookup_version_newer_first (qgis_core : QgisCore) : M string :=
  try_except (CheckQgis.getattr_QGIS_VERSION "Qgis" (Qgis qgis_core))
    is_AttributeError
    (CheckQgis.getattr_QGIS_VERSION "QGis" (QGis qgis_core)).

(* ===================================================================== *)
(** ** Sample hosts and states *)
(* ===================================================================== *)

Definition fresh_distribution : Distribution.t :=
  {| Distribution.gmsh_bin_path := None;
     Distribution.qgis_path := None;
     Distribution.include_git_sha_key := true;
     Distribution.include_full_license := true;
     Distribution.include_author_ids := true |}.

(** The state after [initialize_options] of both commands. *)
Definition fresh_state : State :=
  {| distribution := fresh_distribution;
     check_gmsh_self := None;
     check_qgis_self := None;
     environ := fun _ => None;
     events := [] |}.

(** [bytes.decode("utf-8")] on the sample hosts, for the texts this model
    of [str] has. *)
Definition sample_decode (b : string) : exn + string :=
  match PyStr.decode_utf8_below_256 b with
  | Some text => inr text
  | None => inl (UnicodeDecodeError "'utf-8' codec can't decode bytes")
  end.

(** A Linux host with neither tool, outside any git repository. *)
Definition bare_host : Host :=
  {| platform_system := "Linux";
     path_exists := fun p => String.eqb p "/usr" || String.eqb p "/opt/tools";
     path_isdir := fun p => String.eqb p "/usr" || String.eqb p "/opt/tools";
     path_isfile := fun _ => false;
     check_output := fun argv => inl (CalledProcessError 1 argv);
     import_qgis := inl (ModuleNotFoundError "qgis");
     import_qgis_core := inl (ModuleNotFoundError "qgis");
     popen_wait := fun _ => inl (OSError "No such file or directory");
     decode_utf8 := sample_decode;
     git_Repo := inl (InvalidGitRepositoryError "/tmp/build") |}.

Definition running_app : QgsApplication :=
  {| setPrefixPath := fun _ _ => None; initQgis := None |}.

(** A [qgis.core] that has the version under both class names. *)
Definition core_with_both_names : QgisCore :=
  {| QgsApplication_call := inr running_app;
     QGis := Some (Some "2.18.0");
     Qgis := Some (Some "3.10.4") |}.

(** A [qgis.core] of QGIS 3. *)
Definition core_qgis3 : QgisCore :=
  {| QgsApplication_call := inr running_app;
     QGis := None;
     Qgis := Some (Some "3.10.4") |}.

Definition installed_paths : list string :=
  ["/"; "/usr"; "/usr/bin"; "/usr/bin/gmsh"; "/usr/bin/gistoolkit-bin";
   "/usr/lib"; "/usr/lib/gistoolkit"; "/opt/mesher/bin/meshgen"].

Definition installed_dirs : list string :=
  ["/"; "/usr"; "/usr/bin"; "/usr/lib"; "/usr/lib/gistoolkit"].

Definition member (p : string) (l : list string) : bool :=
  existsb (String.eqb p) l.

(** A Linux host with both tools, in a git work tree with local changes.
    [which] answers with the path and a line feed. *)
Definition linux_host : Host :=
  {| platform_system := "Linux";
     path_exists := fun p => member p installed_paths;
     path_isdir := fun p => member p installed_dirs;
     path_isfile := fun p => member p installed_paths && negb (member p installed_dirs);
     check_output := fun argv =>
       if list_eq_dec string_dec argv ["which"; "gmsh"]
       then inr ("/usr/bin/gmsh" ++ String PyStr.LF "")
       else if list_eq_dec string_dec argv ["which"; "qgis"]
       then inr ("/usr/bin/gistoolkit-bin" ++ String PyStr.LF "")
       else inl (CalledProcessError 1 argv);
     import_qgis := inr {| qgis__path__ := ["/usr/lib/gistoolkit"] |};
     import_qgis_core := inr core_qgis3;
     popen_wait := fun argv =>
       if member (hd "" argv) ["/usr/bin/gmsh"; "/opt/mesher/bin/meshgen"]
       then inr (0%Z, "MeshGen 4.2.0" ++ String PyStr.LF "build 1234")
       else inl (OSError "No such file or directory");
     decode_utf8 := sample_decode;
     git_Repo := inr {| head_object_hexsha := inr "0f3c9a1";
                        is_dirty := inr true |} |}.

(** The same host on a platform the gmsh probe does not know. *)
Definition freebsd_host : Host :=
  {| platform_system := "FreeBSD";
     path_exists := path_exists linux_host;
     path_isdir := path_isdir linux_host;
     path_isfile := path_isfile linux_host;
     check_output := check_output linux_host;
     import_qgis := import_qgis linux_host;
     import_qgis_core := import_qgis_core linux_host;
     popen_wait := popen_wait linux_host;
     decode_utf8 := decode_utf8 linux_host;
     git_Repo := git_Repo linux_host |}.

(** A host on which the package [qgis] imports but [which qgis] finds no
    executable, and [qgis.core] does not import. *)
Definition host_without_qgis_executable : Host :=
  {| platform_system := "Linux";
     path_exists := path_exists linux_host;
     path_isdir := path_isdir linux_host;
     path_isfile := path_isfile linux_host;
     check_output := fun argv => inl (CalledProcessError 1 argv);
     import_qgis := inr {| qgis__path__ := ["/usr/lib/gistoolkit"] |};
     import_qgis_core := inl (ModuleNotFoundError "qgis.core");
     popen_wait := popen_wait linux_host;
     decode_utf8 := decode_utf8 linux_host;
     git_Repo := git_Repo linux_host |}.

(** A host inside a git repository that has no commit yet: GitPython raises
    a [ValueError] when the head reference is read. *)
Definition host_in_empty_repository : Host :=
  {| platform_system := "Linux";
     path_exists := path_exists linux_host;
     path_isdir := path_isdir linux_host;
     path_isfile := path_isfile linux_host;
     check_output := check_output linux_host;
     import_qgis := import_qgis linux_host;
     import_qgis_core := import_qgis_core linux_host;
     popen_wait := popen_wait linux_host;
     decode_utf8 := decode_utf8 linux_host;
     git_Repo := inr {| head_object_hexsha :=
                          inl (ValueError "Reference at 'refs/heads/master' does not exist");
                        is_dirty := inr false |} |}.

(* ===================================================================== *)
(** ** More definitions for statements, more sample hosts *)
(* ===================================================================== *)

(** The file [CheckGmsh.run] starts for the path [p] of the command
    attribute. *)
Definition gmsh_binary (h : Host) (p : string) : string :=
  if path_isdir h p then PosixPath.join p "gmsh" else p.

(** A [qgis.core] that has the version under neither name. *)
Definition core_without_version : QgisCore :=
  {| QgsApplication_call := inr running_app;
     QGis := None;
     Qgis := Some None |}.

(** The Linux host with a [qgis.core] that gives no version, and with a
    gmsh that exits with status 1. *)
Definition host_with_broken_tools : Host :=
  {| platform_system := "Linux";
     path_exists := path_exists linux_host;
     path_isdir := path_isdir linux_host;
     path_isfile := path_isfile linux_host;
     check_output := check_output linux_host;
     import_qgis := import_qgis linux_host;
     import_qgis_core := inr core_without_version;
     popen_wait := fun _ => inr (1%Z, "gmsh: cannot open display");
     decode_utf8 := sample_decode;
     git_Repo := inl (ValueError "Reference at 'refs/heads/master' does not exist") |}.

(** The FreeBSD host without gmsh. *)
Definition freebsd_host_without_gmsh : Host :=
  {| platform_system := "FreeBSD";
     path_exists := path_exists linux_host;
     path_isdir := path_isdir linux_host;
     path_isfile := path_isfile linux_host;
     check_output := fun argv => inl (CalledProcessError 1 argv);
     import_qgis := import_qgis linux_host;
     import_qgis_core := import_qgis_core linux_host;
     popen_wait := fun _ => inl (OSError "No such file or directory");
     decode_utf8 := sample_decode;
     git_Repo := git_Repo linux_host |}.

(** The Linux host with a gmsh that exits with status 0 after printing a
    first line that is not UTF-8 (it starts with the byte 0xff). *)
Definition host_with_garbled_gmsh_output : Host :=
  {| platform_system := "Linux";
     path_exists := path_exists linux_host;
     path_isdir := path_isdir linux_host;
     path_isfile := path_isfile linux_host;
     check_output := check_output linux_host;
     import_qgis := import_qgis linux_host;
     import_qgis_core := import_qgis_core linux_host;
     popen_wait := fun _ =>
       inr (0%Z, String (ascii_of_nat 255) ("gmsh" ++ String PyStr.LF "4.2.0"));
     decode_utf8 := sample_decode;
     git_Repo := git_Repo linux_host |}.

(** The Linux host on which the package [qgis] is found but does not load:
    the import raises a plain [ImportError]. *)
Definition host_with_broken_qgis_library : Host :=
  {| platform_system := "Linux";
     path_exists := path_exists linux_host;
     path_isdir := path_isdir linux_host;
     path_isfile := path_isfile linux_host;
     check_output := check_output linux_host;
     import_qgis :=
       inl (ImportError "libqgis_core.so.3.10: cannot open shared object file");
     import_qgis_core :=
       inl (ImportError "libqgis_core.so.3.10: cannot open shared object file");
     popen_wait := popen_wait linux_host;
     decode_utf8 := sample_decode;
     git_Repo := git_Repo linux_host |}.

(** A working directory with a license file and no authors file. *)
Definition files_with_license : LocalFiles :=
  {| open_read := fun name =>
       if String.eqb name "LICENSE" then inr "GNU GENERAL PUBLIC LICENSE"
       else inl (OSError ("No such file or directory: " ++ PyStr.repr name)) |}.

(** A distribution with every writer switched off. *)
Definition quiet_distribution : Distribution.t :=
  {| Distribution.gmsh_bin_path := Some "";
     Distribution.qgis_path := None;
     Distribution.include_git_sha_key := false;
     Distribution.include_full_license := false;
     Distribution.include_author_ids := false |}.

(* ===================================================================== *)
(** ** Tactics that run the monad *)
(* ===================================================================== *)

Ltac run_monad :=
  unfold new_events in *; unfold outcome, final, announce in *;
  unfold emit, lift, lift_unit in *;
  unfold bind, try_except, gets, modify, raise, ret in *.

Arguments Dist.assert_path : simpl never.
Arguments CheckGmsh.locate : simpl never.
Arguments CheckQgis.locate : simpl never.
Arguments CheckQgis.verify : simpl never.
Arguments CheckQgis.lookup_version : simpl never.
Arguments EggInfo.read_git_sha_key : simpl never.
Arguments PyStr.strip : simpl never.
Arguments PyStr.repr : simpl never.
Arguments PosixPath.join : simpl never.
Arguments String.append : simpl never.
Arguments Setup.locate_gmsh : simpl never.

(** The branches of [CheckGmsh.run], one by one. *)
Ltac run_gmsh h :=
  unfold CheckGmsh.run; run_monad; cbn;
  repeat match goal with
         | H : ?x = _ |- context [?x] => rewrite H; cbn
         | |- context [popen_wait h ?argv] =>
             destruct (popen_wait h argv) as [?e|[?rc ?out]]; cbn
         | |- context [Z.eqb ?rc 0] => destruct (Z.eqb rc 0); cbn
         | |- context [decode_utf8 h ?b] =>
             destruct (decode_utf8 h b) as [?e|?text]; cbn
         | |- context [path_isfile h ?p] => destruct (path_isfile h p) eqn:?; cbn
         | |- context [path_isdir h ?p] => destruct (path_isdir h p) eqn:?; cbn
         end.

(* ===================================================================== *)
(** ** The model on the sample hosts *)
(* ===================================================================== *)

Example split_usr_lib :
  PyStr.split "/" "/usr/lib/qgis" = [""; "usr"; "lib"; "qgis"].
Proof. reflexivity. Qed.

Example strip_which_output :
  PyStr.strip (String " " ("/usr/bin/gmsh" ++ String PyStr.LF "")) = "/usr/bin/gmsh".
Proof. reflexivity. Qed.

Example repr_plain : PyStr.repr "qgis-path" = "'qgis-path'".
Proof. reflexivity. Qed.

Example join_root_usr :
  PosixPath.join "/" "usr" = "/usr" /\ PosixPath.join "/usr" "lib" = "/usr/lib"
  /\ PosixPath.join "/usr" "" = "/usr/".
Proof. repeat split. Qed.

Example splitext_egg_file :
  PosixPath.splitext "git_sha_key.txt" = ("git_sha_key", ".txt")
  /\ PosixPath.splitext ".hidden" = (".hidden", "")
  /\ PosixPath.splitext "a.d/name" = ("a.d/name", "").
Proof. repeat split. Qed.

Example decode_two_bytes :
  PyStr.decode_utf8_below_256
    (String "v" (String (ascii_of_nat 195) (String (ascii_of_nat 169) "")))
  = Some (String "v" (String (ascii_of_nat 233) ""))
  /\ PyStr.decode_utf8_below_256 (String (ascii_of_nat 255) "gmsh") = None
  /\ PyStr.decode_utf8_below_256 (String (ascii_of_nat 195) "") = None.
Proof. repeat split. Qed.

(** The end-to-end scenarios, run on the sample hosts. *)

Example scenario_gmsh_override :
  let m := (CheckGmsh.finalize_options linux_host ;; CheckGmsh.run linux_host) in
  let s := set_check_gmsh_self (Some "/opt/mesher/bin/meshgen") fresh_state in
  outcome m s = inr tt
  /\ Distribution.gmsh_bin_path (distribution (final m s)) = Some "/opt/mesher/bin/meshgen"
  /\ events (final m s) =
       [TemporaryFileOpen;
        Popen ["/opt/mesher/bin/meshgen"; "--version"];
        Announce INFO "Found gmsh version MeshGen 4.2.0 at /opt/mesher/bin/meshgen";
        TemporaryFileClose].
Proof. vm_compute. repeat split. Qed.

Example scenario_gmsh_not_found :
  outcome (CheckGmsh.finalize_options bare_host) fresh_state =
  inl (DistutilsSetupError
         "Qmesh uses gmsh as a mesh generator, hence gmsh must be installed. Could not locate a gmsh installation.").
Proof. vm_compute. reflexivity. Qed.

Example scenario_qgis_probe :
  let m := CheckQgis.finalize_options linux_host in
  outcome m fresh_state = inr tt
  /\ check_qgis_self (final m fresh_state) = Some "/usr".
Proof. vm_compute. repeat split. Qed.

Example scenario_git_outside_repository :
  let m := EggInfo.write_git_sha_key bare_host "git_sha_key.txt" "pkg.egg-info/git_sha_key.txt" in
  outcome m fresh_state = inr tt
  /\ events (final m fresh_state) =
       [WriteOrDeleteFile "git_sha_key" "pkg.egg-info/git_sha_key.txt"
          "Could not obtain git sha key."].
Proof. vm_compute. repeat split. Qed.

(* ===================================================================== *)
(** ** Lemmas on the state and on the path validator *)
(* ===================================================================== *)

Lemma skipn_length_app {A} (l l' : list A) : skipn (length l) (l ++ l') = l'.
Proof. induction l as [|a l IH]; simpl; [reflexivity | exact IH]. Qed.

Lemma skipn_length_self {A} (l : list A) : skipn (length l) l = [].
Proof. induction l as [|a l IH]; simpl; [reflexivity | exact IH]. Qed.

Lemma set_check_gmsh_self_same (s : State) (p : string) :
  check_gmsh_self s = Some p -> set_check_gmsh_self (Some p) s = s.
Proof. destruct s; simpl; intros ->; reflexivity. Qed.

Lemma set_check_qgis_self_same (s : State) (p : string) :
  check_qgis_self s = Some p -> set_check_qgis_self (Some p) s = s.
Proof. destruct s; simpl; intros ->; reflexivity. Qed.

Lemma assert_path_existing (h : Host) (attr p : string) (s : State) :
  path_exists h p = true -> Dist.assert_path h attr (Some p) s = (inr tt, s).
Proof. intros E. unfold Dist.assert_path. rewrite E. reflexivity. Qed.

Lemma assert_path_missing (h : Host) (attr p : string) (s : State) :
  path_exists h p = false ->
  Dist.assert_path h attr (Some p) s
  = (inl (DistutilsSetupError (Dist.not_a_path_msg attr p)),
     add_event (Announce FATAL (Dist.not_a_path_msg attr p)) s).
Proof. intros E. unfold Dist.assert_path. rewrite E. reflexivity. Qed.

(** [assert_path] never probes, and leaves the attributes alone. *)
Lemma assert_path_no_probe (h : Host) (attr p : string) (s : State) :
  existsb is_probe
    (skipn (length (events s)) (events (snd (Dist.assert_path h attr (Some p) s))))
  = false.
Proof.
  destruct (path_exists h p) eqn:E.
  - rewrite assert_path_existing by exact E. simpl.
    rewrite skipn_length_self. reflexivity.
  - rewrite assert_path_missing by exact E. simpl.
    rewrite skipn_length_app. reflexivity.
Qed.

Lemma assert_path_keeps_attributes (h : Host) (attr p : string) (s : State) :
  check_gmsh_self (snd (Dist.assert_path h attr (Some p) s)) = check_gmsh_self s
  /\ check_qgis_self (snd (Dist.assert_path h attr (Some p) s)) = check_qgis_self s
  /\ distribution (snd (Dist.assert_path h attr (Some p) s)) = distribution s.
Proof.
  destruct (path_exists h p) eqn:E.
  - rewrite assert_path_existing by exact E. auto.
  - rewrite assert_path_missing by exact E. auto.
Qed.

(* ===================================================================== *)
(** ** The path validator *)
(* ===================================================================== *)

(** C9, as amended.  [assert_path] returns for every path string that
    [os.path.exists] accepts, absolute or relative, file or directory, and
    then changes nothing; for every other path string it raises
    [DistutilsSetupError], after one thing more than raising: it announces
    the error message at level FATAL through the distribution. *)
Theorem assert_path_accepts_exactly_existing_paths
  (h : Host) (attr p : string) (s : State) :
  (path_exists h p = true ->
     outcome (Dist.assert_path h attr (Some p)) s = inr tt
     /\ final (Dist.assert_path h attr (Some p)) s = s)
  /\ (path_exists h p = false ->
        outcome (Dist.assert_path h attr (Some p)) s
        = inl (DistutilsSetupError (Dist.not_a_path_msg attr p))
        /\ final (Dist.assert_path h attr (Some p)) s
           = add_event (Announce FATAL (Dist.not_a_path_msg attr p)) s).
Proof.
  unfold outcome, final. split; intros E.
  - rewrite assert_path_existing by exact E. split; reflexivity.
  - rewrite assert_path_missing by exact E. split; reflexivity.
Qed.

Lemma assert_path_accepts_exactly_existing_paths_witness :
  (outcome (Dist.assert_path linux_host "qgis-path" (Some "/usr/lib")) fresh_state = inr tt
   /\ final (Dist.assert_path linux_host "qgis-path" (Some "/usr/lib")) fresh_state
      = fresh_state)
  /\ (outcome (Dist.assert_path linux_host "qgis-path" (Some "build/qgis")) fresh_state
      = inl (DistutilsSetupError (Dist.not_a_path_msg "qgis-path" "build/qgis"))
      /\ final (Dist.assert_path linux_host "qgis-path" (Some "build/qgis")) fresh_state
         = add_event (Announce FATAL (Dist.not_a_path_msg "qgis-path" "build/qgis"))
             fresh_state).
Proof.
  split.
  - apply (proj1 (assert_path_accepts_exactly_existing_paths
                    linux_host "qgis-path" "/usr/lib" fresh_state)).
    reflexivity.
  - apply (proj2 (assert_path_accepts_exactly_existing_paths
                    linux_host "qgis-path" "build/qgis" fresh_state)).
    reflexivity.
Defined.

(** C9, as stated, fails: on a path that does not exist [assert_path] does
    more than raise, it logs.  The state after the call differs from the
    state before it by the announcement. *)
Lemma assert_path_announces_before_raising :
  outcome (Dist.assert_path linux_host "qgis-path" (Some "/nonexistent")) fresh_state
  = inl (DistutilsSetupError "'qgis-path' must be a path ('/nonexistent' is not a path)")
  /\ events (final (Dist.assert_path linux_host "qgis-path" (Some "/nonexistent")) fresh_state)
     = [Announce FATAL "'qgis-path' must be a path ('/nonexistent' is not a path)"]
  /\ final (Dist.assert_path linux_host "qgis-path" (Some "/nonexistent")) fresh_state
     <> fresh_state.
Proof.
  split; [reflexivity | split; [reflexivity | ]].
  intros E. apply (f_equal events) in E. discriminate E.
Qed.

(* ===================================================================== *)
(** ** The locators: [finalize_options] *)
(* ===================================================================== *)

(** With an override, [CheckGmsh.finalize_options] is: store, validate. *)
Lemma gmsh_finalize_with_override (h : Host) (s : State) (p : string) :
  override (check_gmsh_self s) (Distribution.gmsh_bin_path (distribution s)) = Some p ->
  CheckGmsh.finalize_options h s
  = Dist.assert_path h "gmsh_bin_path" (Some p) (set_check_gmsh_self (Some p) s).
Proof.
  intros O. unfold CheckGmsh.finalize_options. run_monad.
  destruct (check_gmsh_self s) as [q|] eqn:Eself; simpl in O.
  - injection O as ->. rewrite Eself.
    rewrite set_check_gmsh_self_same by exact Eself. reflexivity.
  - rewrite O. reflexivity.
Qed.

Lemma qgis_finalize_with_override (h : Host) (s : State) (p : string) :
  override (check_qgis_self s) (Distribution.qgis_path (distribution s)) = Some p ->
  CheckQgis.finalize_options h s
  = Dist.assert_path h "qgis-path" (Some p) (set_check_qgis_self (Some p) s).
Proof.
  intros O. unfold CheckQgis.finalize_options. run_monad.
  destruct (check_qgis_self s) as [q|] eqn:Eself; simpl in O.
  - injection O as ->. rewrite Eself.
    rewrite set_check_qgis_self_same by exact Eself. reflexivity.
  - rewrite O. reflexivity.
Qed.

(** C7.  With an override [p] (the command attribute, or else the
    distribution attribute), [finalize_options] of either command stores [p]
    as it is in the command attribute and then validates exactly [p]: it is
    [assert_path] run from the state in which [p] is already stored, so the
    attribute holds [p] whether or not the validation raises, and among the
    events of the call there is no PATH lookup and no module import. *)
Theorem override_is_used_verbatim (h : Host) (s : State) (p : string) :
  (override (check_gmsh_self s) (Distribution.gmsh_bin_path (distribution s)) = Some p ->
     CheckGmsh.finalize_options h s
     = Dist.assert_path h "gmsh_bin_path" (Some p) (set_check_gmsh_self (Some p) s)
     /\ check_gmsh_self (final (CheckGmsh.finalize_options h) s) = Some p
     /\ existsb is_probe (new_events (CheckGmsh.finalize_options h) s) = false)
  /\ (override (check_qgis_self s) (Distribution.qgis_path (distribution s)) = Some p ->
        CheckQgis.finalize_options h s
        = Dist.assert_path h "qgis-path" (Some p) (set_check_qgis_self (Some p) s)
        /\ check_qgis_self (final (CheckQgis.finalize_options h) s) = Some p
        /\ existsb is_probe (new_events (CheckQgis.finalize_options h) s) = false).
Proof.
  split; intros O.
  - pose proof (gmsh_finalize_with_override h s p O) as E.
    split; [exact E|]. unfold new_events, final. rewrite E. split.
    + destruct (assert_path_keeps_attributes h "gmsh_bin_path" p
                  (set_check_gmsh_self (Some p) s)) as [K _].
      rewrite K. reflexivity.
    + exact (assert_path_no_probe h "gmsh_bin_path" p (set_check_gmsh_self (Some p) s)).
  - pose proof (qgis_finalize_with_override h s p O) as E.
    split; [exact E|]. unfold new_events, final. rewrite E. split.
    + destruct (assert_path_keeps_attributes h "qgis-path" p
                  (set_check_qgis_self (Some p) s)) as [_ [K _]].
      rewrite K. reflexivity.
    + exact (assert_path_no_probe h "qgis-path" p (set_check_qgis_self (Some p) s)).
Qed.

(** The witness runs both locators on a host with nothing installed: the
    override of the command (a path that does not exist) is stored and the
    host is not probed. *)
Lemma override_is_used_verbatim_witness :
  check_gmsh_self
    (final (CheckGmsh.finalize_options bare_host)
       (set_check_gmsh_self (Some "/opt/gmsh/bin") fresh_state))
  = Some "/opt/gmsh/bin"
  /\ existsb is_probe
       (new_events (CheckQgis.finalize_options bare_host)
          (set_distribution
             (Distribution.set_qgis_path (Some "/usr") fresh_distribution)
             fresh_state))
     = false.
Proof.
  split.
  - apply (proj1 (override_is_used_verbatim bare_host
                    (set_check_gmsh_self (Some "/opt/gmsh/bin") fresh_state)
                    "/opt/gmsh/bin")).
    reflexivity.
  - apply (proj2 (override_is_used_verbatim bare_host
                    (set_distribution
                       (Distribution.set_qgis_path (Some "/usr") fresh_distribution)
                       fresh_state)
                    "/usr")).
    reflexivity.
Defined.

Lemma override_none (command_attr dist_attr : option string) :
  override command_attr dist_attr = None -> command_attr = None /\ dist_attr = None.
Proof. destruct command_attr; simpl; intros E; [discriminate | auto]. Qed.

(** On a platform whose name is none of the three, [locate] runs no lookup
    and binds nothing. *)
Lemma gmsh_locate_unknown_platform (h : Host) (s : State) :
  known_platform (platform_system h) = false ->
  CheckGmsh.locate h s = (inr None, s).
Proof.
  unfold known_platform, CheckGmsh.locate. intros K.
  apply orb_false_elim in K as [K W]. rewrite K, W. reflexivity.
Qed.

(** On the three platforms, [locate] raises or binds. *)
Lemma gmsh_locate_known_platform (h : Host) (s : State) :
  known_platform (platform_system h) = true ->
  outcome (CheckGmsh.locate h) s <> inr None.
Proof.
  unfold known_platform, CheckGmsh.locate. run_monad. intros K.
  destruct (String.eqb (platform_system h) "Windows") eqn:W;
    destruct (String.eqb (platform_system h) "Linux"
              || String.eqb (platform_system h) "Darwin") eqn:LD;
    simpl in *; try discriminate K;
    repeat match goal with
           | |- context [check_output h ?argv] => destruct (check_output h argv)
           end; simpl; discriminate.
Qed.

(** Without an override, [CheckGmsh.finalize_options] announces the probe
    and goes by what [locate] does. *)
Lemma gmsh_finalize_without_override (h : Host) (s : State) :
  override (check_gmsh_self s) (Distribution.gmsh_bin_path (distribution s)) = None ->
  CheckGmsh.finalize_options h s
  = match CheckGmsh.locate h (add_event (Announce ERROR gmsh_probe_announcement) s) with
    | (inr (Some out), s') =>
        Dist.assert_path h "gmsh_bin_path" (Some (PyStr.strip out))
          (set_check_gmsh_self (Some (PyStr.strip out)) s')
    | (inr None, s') => (inl (UnboundLocalError "gmsh_bin_path"), s')
    | (inl e, s') =>
        if is_CalledProcessError e
        then (inl (DistutilsSetupError
                     "Qmesh uses gmsh as a mesh generator, hence gmsh must be installed. Could not locate a gmsh installation."),
              add_event (Announce FATAL "Could not locate a gmsh installation.") s')
        else (inl e, s')
    end.
Proof.
  intros O. apply override_none in O as [Eself Edist].
  unfold CheckGmsh.finalize_options. run_monad. rewrite Eself, Edist. cbn.
  change ("No specification of gmsh path is present." ++
          " Will try to detect a gmsh installation") with gmsh_probe_announcement.
  destruct (CheckGmsh.locate h _) as [[e|[out|]] s']; cbn; try reflexivity.
  destruct (is_CalledProcessError e); reflexivity.
Qed.

(** C10.  In [CheckGmsh.finalize_options] the body of the [try] leaves the
    local [gmsh_bin_path] unbound exactly when the platform name is none of
    'Linux', 'Darwin', 'Windows'; and then, with no override, no lookup is
    run, nothing is stored, and the use of the variable raises
    [UnboundLocalError], which is not one of the distutils errors. *)
Theorem gmsh_probe_bound_only_on_known_platforms (h : Host) (s : State) :
  (outcome (CheckGmsh.locate h) s = inr None
   <-> known_platform (platform_system h) = false)
  /\ (known_platform (platform_system h) = false ->
      override (check_gmsh_self s) (Distribution.gmsh_bin_path (distribution s)) = None ->
      outcome (CheckGmsh.finalize_options h) s = inl (UnboundLocalError "gmsh_bin_path")
      /\ is_distutils_error (UnboundLocalError "gmsh_bin_path") = false
      /\ new_events (CheckGmsh.finalize_options h) s
         = [Announce ERROR gmsh_probe_announcement]
      /\ check_gmsh_self (final (CheckGmsh.finalize_options h) s) = None).
Proof.
  split.
  - split.
    + intros E. destruct (known_platform (platform_system h)) eqn:K; [|reflexivity].
      exfalso. exact (gmsh_locate_known_platform h s K E).
    + intros K. unfold outcome. rewrite gmsh_locate_unknown_platform by exact K.
      reflexivity.
  - intros K O. apply override_none in O as [Eself Edist].
    unfold outcome, new_events, final.
    rewrite gmsh_finalize_without_override
      by (rewrite Eself, Edist; reflexivity).
    rewrite gmsh_locate_unknown_platform by exact K. cbn.
    rewrite skipn_length_app. rewrite Eself. auto.
Qed.

Lemma gmsh_probe_bound_only_on_known_platforms_witness :
  outcome (CheckGmsh.finalize_options freebsd_host) fresh_state
  = inl (UnboundLocalError "gmsh_bin_path")
  /\ is_distutils_error (UnboundLocalError "gmsh_bin_path") = false
  /\ new_events (CheckGmsh.finalize_options freebsd_host) fresh_state
     = [Announce ERROR gmsh_probe_announcement]
  /\ check_gmsh_self (final (CheckGmsh.finalize_options freebsd_host) fresh_state) = None.
Proof.
  apply (proj2 (gmsh_probe_bound_only_on_known_platforms freebsd_host fresh_state));
    reflexivity.
Defined.

(** [locate], by the lookup of the platform. *)
Lemma gmsh_locate_by_platform (h : Host) (s : State) :
  CheckGmsh.locate h s
  = match gmsh_lookup_argv (platform_system h) with
    | None => (inr None, s)
    | Some argv =>
        match check_output h argv with
        | inl e => (inl e, add_event (CheckOutput argv) s)
        | inr out => (inr (Some out), add_event (CheckOutput argv) s)
        end
    end.
Proof.
  unfold gmsh_lookup_argv, CheckGmsh.locate. run_monad.
  destruct (String.eqb_spec (platform_system h) "Windows") as [W|W].
  - rewrite W. cbn. destruct (check_output h _); reflexivity.
  - destruct (String.eqb (platform_system h) "Linux"
              || String.eqb (platform_system h) "Darwin"); cbn.
    + destruct (check_output h _); reflexivity.
    + reflexivity.
Qed.

(** Without an override, [CheckQgis.finalize_options] announces the probe
    and goes by what [locate] does. *)
Lemma qgis_finalize_without_override (h : Host) (s : State) :
  override (check_qgis_self s) (Distribution.qgis_path (distribution s)) = None ->
  CheckQgis.finalize_options h s
  = match CheckQgis.locate h (add_event (Announce ERROR qgis_probe_announcement) s) with
    | (inr _, s') => Dist.assert_path h "qgis-path" (check_qgis_self s') s'
    | (inl e, s') =>
        if is_ModuleNotFoundError e
        then (inl qgis_not_installed_error,
              add_event
                (Announce FATAL "Host system does not appear to have a qgis installation.")
                s')
        else (inl e, s')
    end.
Proof.
  intros O. apply override_none in O as [Eself Edist].
  unfold CheckQgis.finalize_options. run_monad. rewrite Eself, Edist. cbn.
  change ("No specification of qgis path is present." ++
          " Will try to detect a qgis installation") with qgis_probe_announcement.
  destruct (CheckQgis.locate h _) as [[e|[]] s']; cbn; try reflexivity.
  destruct (is_ModuleNotFoundError e); reflexivity.
Qed.

Lemma qgis_locate_import_fails (h : Host) (s : State) (e : exn) :
  import_qgis h = inl e ->
  CheckQgis.locate h s = (inl e, add_event (ImportModule "qgis") s).
Proof. intros I. unfold CheckQgis.locate. run_monad. rewrite I. reflexivity. Qed.

Lemma qgis_locate_lookup_fails
  (h : Host) (s : State) (pkg : QgisPackage) (first : string) (rest : list string)
  (e : exn) :
  import_qgis h = inr pkg ->
  qgis__path__ pkg = first :: rest ->
  check_output h ["which"; "qgis"] = inl e ->
  CheckQgis.locate h s
  = (inl e, add_event (CheckOutput ["which"; "qgis"])
              (add_event (ImportModule "qgis") s)).
Proof.
  intros I P L. unfold CheckQgis.locate. run_monad. rewrite I. cbn.
  rewrite P, L. reflexivity.
Qed.

Lemma qgis_locate_found
  (h : Host) (s : State) (pkg : QgisPackage) (first : string) (rest : list string)
  (out : string) :
  import_qgis h = inr pkg ->
  qgis__path__ pkg = first :: rest ->
  check_output h ["which"; "qgis"] = inr out ->
  CheckQgis.locate h s
  = (inr tt,
     set_check_qgis_self (Some (CheckQgis.derive_qgis_path first out))
       (add_event (CheckOutput ["which"; "qgis"])
          (add_event (ImportModule "qgis") s))).
Proof.
  intros I P L. unfold CheckQgis.locate. run_monad. rewrite I. cbn.
  rewrite P, L. reflexivity.
Qed.

(** C5, as amended.  With no override: when the PATH lookup of the gmsh
    probe exits with a nonzero status, [CheckGmsh.finalize_options] raises
    the [DistutilsSetupError] that names gmsh; when the import of [qgis]
    fails with [ModuleNotFoundError], [CheckQgis.finalize_options] raises
    the [DistutilsPlatformError] that names qgis, and when it fails with any
    other exception (a plain [ImportError]), that exception goes on as it
    was raised.  In these cases, and also when the lookup of the qgis
    executable fails, the locator does not return and stores no path: the
    command attribute stays [None] and the distribution is as it was. *)
Theorem probe_failure_raises_and_stores_nothing (h : Host) (s : State) :
  (override (check_gmsh_self s) (Distribution.gmsh_bin_path (distribution s)) = None ->
   forall argv returncode cmd,
     gmsh_lookup_argv (platform_system h) = Some argv ->
     check_output h argv = inl (CalledProcessError returncode cmd) ->
     outcome (CheckGmsh.finalize_options h) s = inl gmsh_not_located_error
     /\ check_gmsh_self (final (CheckGmsh.finalize_options h) s) = None
     /\ distribution (final (CheckGmsh.finalize_options h) s) = distribution s)
  /\ (override (check_qgis_self s) (Distribution.qgis_path (distribution s)) = None ->
      forall name,
        import_qgis h = inl (ModuleNotFoundError name) ->
        outcome (CheckQgis.finalize_options h) s = inl qgis_not_installed_error
        /\ check_qgis_self (final (CheckQgis.finalize_options h) s) = None
        /\ distribution (final (CheckQgis.finalize_options h) s) = distribution s)
  /\ (override (check_qgis_self s) (Distribution.qgis_path (distribution s)) = None ->
      forall e,
        import_qgis h = inl e ->
        is_ModuleNotFoundError e = false ->
        outcome (CheckQgis.finalize_options h) s = inl e
        /\ check_qgis_self (final (CheckQgis.finalize_options h) s) = None
        /\ distribution (final (CheckQgis.finalize_options h) s) = distribution s)
  /\ (override (check_qgis_self s) (Distribution.qgis_path (distribution s)) = None ->
      forall pkg first rest e,
        import_qgis h = inr pkg ->
        qgis__path__ pkg = first :: rest ->
        check_output h ["which"; "qgis"] = inl e ->
        (exists raised, outcome (CheckQgis.finalize_options h) s = inl raised)
        /\ check_qgis_self (final (CheckQgis.finalize_options h) s) = None
        /\ distribution (final (CheckQgis.finalize_options h) s) = distribution s).
Proof.
  split; [|split; [|split]]; intros O.
  - intros argv rc cmd A L. unfold outcome, final.
    rewrite gmsh_finalize_without_override by exact O.
    rewrite gmsh_locate_by_platform, A, L. cbn.
    apply override_none in O as [Eself _]. auto.
  - intros name I. unfold outcome, final.
    rewrite qgis_finalize_without_override by exact O.
    rewrite (qgis_locate_import_fails h _ _ I). cbn.
    apply override_none in O as [Eself _]. auto.
  - intros e I N. unfold outcome, final.
    rewrite qgis_finalize_without_override by exact O.
    rewrite (qgis_locate_import_fails h _ _ I), N. cbn.
    apply override_none in O as [Eself _]. auto.
  - intros pkg first rest e I P L. unfold outcome, final.
    rewrite qgis_finalize_without_override by exact O.
    rewrite (qgis_locate_lookup_fails h _ pkg first rest _ I P L).
    apply override_none in O as [Eself _].
    destruct (is_ModuleNotFoundError e); cbn; (split; [eexists; reflexivity | auto]).
Qed.

Lemma probe_failure_raises_and_stores_nothing_witness :
  (outcome (CheckGmsh.finalize_options bare_host) fresh_state = inl gmsh_not_located_error
   /\ check_gmsh_self (final (CheckGmsh.finalize_options bare_host) fresh_state) = None
   /\ distribution (final (CheckGmsh.finalize_options bare_host) fresh_state)
      = distribution fresh_state)
  /\ (outcome (CheckQgis.finalize_options bare_host) fresh_state
      = inl qgis_not_installed_error
      /\ check_qgis_self (final (CheckQgis.finalize_options bare_host) fresh_state) = None
      /\ distribution (final (CheckQgis.finalize_options bare_host) fresh_state)
         = distribution fresh_state)
  /\ (outcome (CheckQgis.finalize_options host_with_broken_qgis_library) fresh_state
      = inl (ImportError "libqgis_core.so.3.10: cannot open shared object file")
      /\ check_qgis_self
           (final (CheckQgis.finalize_options host_with_broken_qgis_library) fresh_state)
         = None
      /\ distribution
           (final (CheckQgis.finalize_options host_with_broken_qgis_library) fresh_state)
         = distribution fresh_state)
  /\ ((exists raised,
         outcome (CheckQgis.finalize_options host_without_qgis_executable) fresh_state
         = inl raised)
      /\ check_qgis_self
           (final (CheckQgis.finalize_options host_without_qgis_executable) fresh_state)
         = None
      /\ distribution
           (final (CheckQgis.finalize_options host_without_qgis_executable) fresh_state)
         = distribution fresh_state).
Proof.
  split; [|split; [|split]].
  - apply (proj1 (probe_failure_raises_and_stores_nothing bare_host fresh_state)
             eq_refl ["which"; "gmsh"] 1%Z ["which"; "gmsh"]); reflexivity.
  - apply (proj1 (proj2 (probe_failure_raises_and_stores_nothing bare_host fresh_state))
             eq_refl "qgis"); reflexivity.
  - apply (proj1 (proj2 (proj2 (probe_failure_raises_and_stores_nothing
                                  host_with_broken_qgis_library fresh_state)))
             eq_refl
             (ImportError "libqgis_core.so.3.10: cannot open shared object file"));
      reflexivity.
  - apply (proj2 (proj2 (proj2 (probe_failure_raises_and_stores_nothing
                                  host_without_qgis_executable fresh_state)))
             eq_refl {| qgis__path__ := ["/usr/lib/gistoolkit"] |}
             "/usr/lib/gistoolkit" [] (CalledProcessError 1 ["which"; "qgis"]));
      reflexivity.
Defined.

(** C5, as stated, fails for the GIS toolkit, on two hosts.  Where the
    import of [qgis] fails with a plain [ImportError] (the package is
    there, a library of it does not load), what
    [CheckQgis.finalize_options] raises is that [ImportError].  Where the
    package imports and [which qgis] exits with status 1, it is the
    [CalledProcessError] of the lookup.  Neither is one of the distutils
    errors. *)
Lemma qgis_probe_failures_are_not_converted :
  outcome (CheckQgis.finalize_options host_with_broken_qgis_library) fresh_state
  = inl (ImportError "libqgis_core.so.3.10: cannot open shared object file")
  /\ is_distutils_error
       (ImportError "libqgis_core.so.3.10: cannot open shared object file") = false
  /\ outcome (CheckQgis.finalize_options host_without_qgis_executable) fresh_state
     = inl (CalledProcessError 1 ["which"; "qgis"])
  /\ is_distutils_error (CalledProcessError 1 ["which"; "qgis"]) = false.
Proof. repeat split. Qed.

(* ===================================================================== *)
(** ** The installation root of qgis *)
(* ===================================================================== *)

(** The loop joins the common prefix of the two segment lists, in order. *)
Lemma walk_joins_common_prefix (root : string) (xs ys : list string) :
  CheckQgis.walk root (combine xs ys)
  = fold_left PosixPath.join (common_prefix xs ys) root.
Proof.
  revert root ys. induction xs as [|x xs IH]; intros root ys.
  - reflexivity.
  - destruct ys as [|y ys]; [reflexivity|]. cbn.
    destruct (String.eqb x y); [apply IH | reflexivity].
Qed.

(** [common_prefix] is a prefix of both lists, and it is the longest: what
    is left of the two lists does not start with the same segment. *)
Lemma common_prefix_longest (xs ys : list string) :
  exists rx ry,
    xs = (common_prefix xs ys ++ rx)%list
    /\ ys = (common_prefix xs ys ++ ry)%list
    /\ match rx, ry with
       | x :: _, y :: _ => x <> y
       | _, _ => True
       end.
Proof.
  revert ys. induction xs as [|x xs IH]; intros ys.
  - exists [], ys. cbn. auto.
  - destruct ys as [|y ys].
    + exists (x :: xs), []. cbn. auto.
    + cbn. destruct (String.eqb_spec x y) as [->|N].
      * destruct (IH ys) as (rx & ry & Ex & Ey & D).
        exists rx, ry. cbn. rewrite <- Ex, <- Ey. auto.
      * exists (x :: xs), (y :: ys). cbn. auto.
Qed.

(** C4.  The root that [CheckQgis.finalize_options] derives from the module
    path [first] and from the executable path [out] (the text [which]
    printed) is the join, from '/', of the longest common prefix of the
    segments of the two paths: the walk stops at the first pair of segments
    that differ.  Without an override that root is what the command stores.
    For '/usr/lib/gistoolkit' and '/usr/bin/gistoolkit-bin' it is '/usr'. *)
Theorem qgis_root_is_join_of_common_prefix
  (h : Host) (s : State) (pkg : QgisPackage) (first out : string) (rest : list string) :
  CheckQgis.derive_qgis_path first out
  = fold_left PosixPath.join
      (common_prefix (PyStr.split "/" first) (PyStr.split "/" out)) "/"
  /\ (exists rx ry,
        PyStr.split "/" first
        = (common_prefix (PyStr.split "/" first) (PyStr.split "/" out) ++ rx)%list
        /\ PyStr.split "/" out
           = (common_prefix (PyStr.split "/" first) (PyStr.split "/" out) ++ ry)%list
        /\ match rx, ry with
           | x :: _, y :: _ => x <> y
           | _, _ => True
           end)
  /\ (override (check_qgis_self s) (Distribution.qgis_path (distribution s)) = None ->
      import_qgis h = inr pkg ->
      qgis__path__ pkg = first :: rest ->
      check_output h ["which"; "qgis"] = inr out ->
      check_qgis_self (final (CheckQgis.finalize_options h) s)
      = Some (CheckQgis.derive_qgis_path first out))
  /\ CheckQgis.derive_qgis_path "/usr/lib/gistoolkit" "/usr/bin/gistoolkit-bin" = "/usr"
  /\ CheckQgis.derive_qgis_path "/usr/lib/gistoolkit"
       ("/usr/bin/gistoolkit-bin" ++ String PyStr.LF "") = "/usr".
Proof.
  split; [|split; [|split; [|split]]].
  - unfold CheckQgis.derive_qgis_path. apply walk_joins_common_prefix.
  - apply common_prefix_longest.
  - intros O I P L. unfold final.
    rewrite qgis_finalize_without_override by exact O.
    rewrite (qgis_locate_found h _ pkg first rest out I P L). cbn.
    destruct (assert_path_keeps_attributes h "qgis-path"
                (CheckQgis.derive_qgis_path first out)
                (set_check_qgis_self (Some (CheckQgis.derive_qgis_path first out))
                   (add_event (CheckOutput ["which"; "qgis"])
                      (add_event (ImportModule "qgis")
                         (add_event (Announce ERROR qgis_probe_announcement) s)))))
      as [_ [K _]].
    exact K.
  - reflexivity.
  - reflexivity.
Qed.

Lemma qgis_root_is_join_of_common_prefix_witness :
  check_qgis_self (final (CheckQgis.finalize_options linux_host) fresh_state)
  = Some (CheckQgis.derive_qgis_path "/usr/lib/gistoolkit"
            ("/usr/bin/gistoolkit-bin" ++ String PyStr.LF "")).
Proof.
  apply (proj1 (proj2 (proj2 (qgis_root_is_join_of_common_prefix
                                linux_host fresh_state
                                {| qgis__path__ := ["/usr/lib/gistoolkit"] |}
                                "/usr/lib/gistoolkit"
                                ("/usr/bin/gistoolkit-bin" ++ String PyStr.LF "")
                                [])))); reflexivity.
Defined.

(* ===================================================================== *)
(** ** The version constant of qgis *)
(* ===================================================================== *)

Lemma getattr_QGIS_VERSION_present
  (cls_name : string) (cls : option (option string)) (version : string) (s : State) :
  version_of cls = Some version ->
  CheckQgis.getattr_QGIS_VERSION cls_name cls s = (inr version, s).
Proof.
  destruct cls as [[v|]|]; cbn; intros E; try discriminate E.
  injection E as ->. reflexivity.
Qed.

Lemma getattr_QGIS_VERSION_absent
  (cls_name : string) (cls : option (option string)) (s : State) :
  version_of cls = None ->
  exists msg,
    CheckQgis.getattr_QGIS_VERSION cls_name cls s = (inl (AttributeError msg), s).
Proof.
  destruct cls as [[v|]|]; cbn; intros E; try discriminate E; eexists; reflexivity.
Qed.

(** C3, as amended.  The lookup in [CheckQgis.run] tries the older name
    [QGis] first: when [QGis.QGIS_VERSION] is there it is the result,
    whatever [Qgis] holds.  It falls back to the newer name [Qgis] only when
    the older one is absent, and it raises (an [AttributeError]) exactly
    when neither is there.  The lookup changes no state. *)
Theorem lookup_version_tries_older_name_first (qgis_core : QgisCore) (s : State) :
  (forall version,
     version_of (QGis qgis_core) = Some version ->
     CheckQgis.lookup_version qgis_core s = (inr version, s))
  /\ (forall version,
        version_of (QGis qgis_core) = None ->
        version_of (Qgis qgis_core) = Some version ->
        CheckQgis.lookup_version qgis_core s = (inr version, s))
  /\ ((exists e, outcome (CheckQgis.lookup_version qgis_core) s = inl e)
      <-> version_of (QGis qgis_core) = None /\ version_of (Qgis qgis_core) = None)
  /\ (forall e,
        outcome (CheckQgis.lookup_version qgis_core) s = inl e ->
        is_AttributeError e = true).
Proof.
  unfold CheckQgis.lookup_version, outcome, try_except.
  destruct (version_of (QGis qgis_core)) as [v1|] eqn:E1.
  - rewrite (getattr_QGIS_VERSION_present "QGis" _ v1 s E1).
    split; [|split; [|split]].
    + intros version E. injection E as ->. reflexivity.
    + intros version E. discriminate E.
    + split; [intros [e E]; discriminate E | intros [E _]; discriminate E].
    + intros e E. discriminate E.
  - destruct (getattr_QGIS_VERSION_absent "QGis" _ s E1) as [msg1 A1].
    rewrite A1. cbn.
    destruct (version_of (Qgis qgis_core)) as [v2|] eqn:E2.
    + rewrite (getattr_QGIS_VERSION_present "Qgis" _ v2 s E2).
      split; [|split; [|split]].
      * intros version E. discriminate E.
      * intros version _ E. injection E as ->. reflexivity.
      * split; [intros [e E]; discriminate E | intros [_ E]; discriminate E].
      * intros e E. discriminate E.
    + destruct (getattr_QGIS_VERSION_absent "Qgis" _ s E2) as [msg2 A2].
      rewrite A2.
      split; [|split; [|split]].
      * intros version E. discriminate E.
      * intros version _ E. discriminate E.
      * split; [auto | intros _; eexists; reflexivity].
      * intros e E. cbn in E. injection E as <-. reflexivity.
Qed.

Lemma lookup_version_tries_older_name_first_witness :
  CheckQgis.lookup_version core_with_both_names fresh_state = (inr "2.18.0", fresh_state)
  /\ CheckQgis.lookup_version core_qgis3 fresh_state = (inr "3.10.4", fresh_state).
Proof.
  split.
  - apply (proj1 (lookup_version_tries_older_name_first core_with_both_names fresh_state)).
    reflexivity.
  - apply (proj1 (proj2 (lookup_version_tries_older_name_first core_qgis3 fresh_state)));
      reflexivity.
Defined.

(** C3, as stated, fails: on a [qgis.core] that has the version under both
    names, trying the newer name first gives the version under [Qgis], and
    the code gives the one under [QGis]. *)
Lemma lookup_version_is_not_newer_first :
  outcome (lookup_version_newer_first core_with_both_names) fresh_state = inr "3.10.4"
  /\ outcome (CheckQgis.lookup_version core_with_both_names) fresh_state = inr "2.18.0"
  /\ outcome (CheckQgis.lookup_version core_with_both_names) fresh_state
     <> outcome (lookup_version_newer_first core_with_both_names) fresh_state.
Proof.
  split; [reflexivity | split; [reflexivity | ]].
  intros E. vm_compute in E. discriminate E.
Qed.

(* ===================================================================== *)
(** ** The verifier of gmsh: [CheckGmsh.run] *)
(* ===================================================================== *)

(** C6.  With [p] in the command attribute: when [p] is a directory,
    [CheckGmsh.run] sets the attribute to [join(p, 'gmsh')], once, raises
    [DistutilsSetupError] without starting anything when that is not a
    file, and otherwise starts that file with [--version]; when [p] is not a
    directory the attribute stays [p] and [p] itself is started. *)
Theorem gmsh_run_appends_binary_name_to_directory (h : Host) (s : State) (p : string) :
  check_gmsh_self s = Some p ->
  (path_isdir h p = true ->
     check_gmsh_self (final (CheckGmsh.run h) s) = Some (PosixPath.join p "gmsh")
     /\ (path_isfile h (PosixPath.join p "gmsh") = false ->
         outcome (CheckGmsh.run h) s
         = inl (DistutilsSetupError ("Could not find gmsh at " ++ PosixPath.join p "gmsh"))
         /\ new_events (CheckGmsh.run h) s
            = [Announce FATAL ("Could not find gmsh at " ++ PosixPath.join p "gmsh")])
     /\ (path_isfile h (PosixPath.join p "gmsh") = true ->
         firstn 2 (new_events (CheckGmsh.run h) s)
         = [TemporaryFileOpen; Popen [PosixPath.join p "gmsh"; "--version"]]))
  /\ (path_isdir h p = false ->
      check_gmsh_self (final (CheckGmsh.run h) s) = Some p
      /\ firstn 2 (new_events (CheckGmsh.run h) s)
         = [TemporaryFileOpen; Popen [p; "--version"]]).
Proof.
  intros Eself. split; intros D.
  - split; [|split].
    + run_gmsh h; reflexivity.
    + intros F. run_gmsh h. rewrite skipn_length_app. auto.
    + intros F. run_gmsh h;
        repeat rewrite <- app_assoc; rewrite skipn_length_app; reflexivity.
  - split.
    + run_gmsh h; auto.
    + run_gmsh h;
        repeat rewrite <- app_assoc; rewrite skipn_length_app; reflexivity.
Qed.

Lemma gmsh_run_appends_binary_name_to_directory_witness :
  (check_gmsh_self
     (final (CheckGmsh.run linux_host)
        (set_check_gmsh_self (Some "/usr/bin") fresh_state))
   = Some (PosixPath.join "/usr/bin" "gmsh")
   /\ firstn 2 (new_events (CheckGmsh.run linux_host)
                  (set_check_gmsh_self (Some "/usr/bin") fresh_state))
      = [TemporaryFileOpen; Popen [PosixPath.join "/usr/bin" "gmsh"; "--version"]])
  /\ (outcome (CheckGmsh.run linux_host)
        (set_check_gmsh_self (Some "/usr/lib") fresh_state)
      = inl (DistutilsSetupError
               ("Could not find gmsh at " ++ PosixPath.join "/usr/lib" "gmsh")))
  /\ (check_gmsh_self
        (final (CheckGmsh.run linux_host)
           (set_check_gmsh_self (Some "/opt/mesher/bin/meshgen") fresh_state))
      = Some "/opt/mesher/bin/meshgen").
Proof.
  split; [split|split].
  - apply (proj1 (gmsh_run_appends_binary_name_to_directory linux_host
                    (set_check_gmsh_self (Some "/usr/bin") fresh_state) "/usr/bin"
                    eq_refl)).
    reflexivity.
  - apply (proj1 (gmsh_run_appends_binary_name_to_directory linux_host
                    (set_check_gmsh_self (Some "/usr/bin") fresh_state) "/usr/bin"
                    eq_refl)); reflexivity.
  - apply (proj1 (gmsh_run_appends_binary_name_to_directory linux_host
                    (set_check_gmsh_self (Some "/usr/lib") fresh_state) "/usr/lib"
                    eq_refl)); reflexivity.
  - apply (proj2 (gmsh_run_appends_binary_name_to_directory linux_host
                    (set_check_gmsh_self (Some "/opt/mesher/bin/meshgen") fresh_state)
                    "/opt/mesher/bin/meshgen" eq_refl)).
    reflexivity.
Defined.

(** Where [CheckGmsh.run] raises, the distribution is as it was; where it
    returns, the distribution holds the path in the command attribute. *)
Lemma gmsh_run_raises_keeps_distribution (h : Host) (s : State) (e : exn) :
  outcome (CheckGmsh.run h) s = inl e ->
  distribution (final (CheckGmsh.run h) s) = distribution s.
Proof.
  destruct (check_gmsh_self s) as [p|] eqn:Eself; revert e;
    run_gmsh h; intros e' E; solve [reflexivity | discriminate E].
Qed.

Lemma gmsh_run_returns_writes_path (h : Host) (s : State) :
  outcome (CheckGmsh.run h) s = inr tt ->
  Distribution.gmsh_bin_path (distribution (final (CheckGmsh.run h) s))
  = check_gmsh_self (final (CheckGmsh.run h) s)
  /\ check_gmsh_self (final (CheckGmsh.run h) s) <> None.
Proof.
  destruct (check_gmsh_self s) as [p|] eqn:Eself;
    run_gmsh h; intros E;
    solve [discriminate E | split; [reflexivity | discriminate] | split; [congruence | congruence]].
Qed.

(* ===================================================================== *)
(** ** The verifier of qgis: [CheckQgis.run] *)
(* ===================================================================== *)

(** [verify] up to the import of [qgis.core], when the import raises. *)
Lemma qgis_verify_import_fails (h : Host) (p : string) (s : State) (e : exn) :
  import_qgis_core h = inl e ->
  CheckQgis.verify h p s
  = (inl e,
     add_event (ImportModule "qgis.core")
       (add_event (SetEnviron "QT_QPA_PLATFORM" "offscreen")
          (set_environ "QT_QPA_PLATFORM" "offscreen"
             (add_event (SetEnviron "QT_LOGGING_RULES" "qt5ct.debug=false")
                (set_environ "QT_LOGGING_RULES" "qt5ct.debug=false" s))))).
Proof. intros I. unfold CheckQgis.verify. run_monad. rewrite I. reflexivity. Qed.

(** [verify] assigns no attribute of the distribution. *)
Lemma qgis_verify_keeps_distribution (h : Host) (p : string) (s : State) :
  distribution (snd (CheckQgis.verify h p s)) = distribution s.
Proof.
  unfold CheckQgis.verify, CheckQgis.lookup_version, CheckQgis.getattr_QGIS_VERSION.
  run_monad. cbn.
  destruct (import_qgis_core h) as [e|core]; cbn; [reflexivity|].
  destruct (QgsApplication_call core) as [e|app]; cbn; [reflexivity|].
  destruct (setPrefixPath app p true); cbn; [reflexivity|].
  destruct (initQgis app); cbn; [reflexivity|].
  destruct (QGis core) as [[v|]|]; cbn; try reflexivity;
    destruct (Qgis core) as [[w|]|]; reflexivity.
Qed.

(** Where [CheckQgis.run] raises, the distribution is as it was. *)
Lemma qgis_run_raises_keeps_distribution (h : Host) (s : State) (e : exn) :
  outcome (CheckQgis.run h) s = inl e ->
  distribution (final (CheckQgis.run h) s) = distribution s.
Proof.
  unfold CheckQgis.run. run_monad.
  destruct (check_qgis_self s) as [p|]; cbn; [|reflexivity].
  pose proof (qgis_verify_keeps_distribution h p
                (add_event (Announce INFO ("Looking for qgis installation at " ++ p)) s))
    as K.
  destruct (CheckQgis.verify h p _) as [[e'|[]] s']; cbn in *.
  - destruct (is_ModuleNotFoundError e'); cbn; intros E;
      [discriminate E | exact K].
  - intros E. discriminate E.
Qed.

(** C1: what the code does where the claim fails.  With a path in the
    command attribute and [qgis.core] not importable
    ([ModuleNotFoundError]), [CheckQgis.run] announces 'Could not find qgis'
    at level FATAL and then returns: nothing is raised. *)
Theorem qgis_run_returns_when_import_fails
  (h : Host) (s : State) (p name : string) :
  check_qgis_self s = Some p ->
  import_qgis_core h = inl (ModuleNotFoundError name) ->
  outcome (CheckQgis.run h) s = inr tt
  /\ new_events (CheckQgis.run h) s
     = [Announce INFO ("Looking for qgis installation at " ++ p);
        SetEnviron "QT_LOGGING_RULES" "qt5ct.debug=false";
        SetEnviron "QT_QPA_PLATFORM" "offscreen";
        ImportModule "qgis.core";
        Announce FATAL ("Could not find qgis at " ++ p)].
Proof.
  intros Eself I. unfold CheckQgis.run. run_monad. rewrite Eself. cbn.
  rewrite (qgis_verify_import_fails h p _ _ I). cbn.
  repeat rewrite <- app_assoc. rewrite skipn_length_app. split; reflexivity.
Qed.

Lemma qgis_run_returns_when_import_fails_witness :
  outcome (CheckQgis.run host_without_qgis_executable)
    (set_check_qgis_self (Some "/usr") fresh_state)
  = inr tt
  /\ new_events (CheckQgis.run host_without_qgis_executable)
       (set_check_qgis_self (Some "/usr") fresh_state)
     = [Announce INFO ("Looking for qgis installation at " ++ "/usr");
        SetEnviron "QT_LOGGING_RULES" "qt5ct.debug=false";
        SetEnviron "QT_QPA_PLATFORM" "offscreen";
        ImportModule "qgis.core";
        Announce FATAL ("Could not find qgis at " ++ "/usr")].
Proof.
  apply (qgis_run_returns_when_import_fails host_without_qgis_executable
           (set_check_qgis_self (Some "/usr") fresh_state) "/usr" "qgis.core");
    reflexivity.
Defined.

(** C2: what the code does where the claim fails.  In the same run, where
    the verification has failed, the path of the command attribute is
    written to the distribution all the same, over whatever was there. *)
Theorem qgis_run_writes_path_when_import_fails
  (h : Host) (s : State) (p name : string) :
  check_qgis_self s = Some p ->
  import_qgis_core h = inl (ModuleNotFoundError name) ->
  distribution (final (CheckQgis.run h) s)
  = Distribution.set_qgis_path (Some p) (distribution s).
Proof.
  intros Eself I. unfold CheckQgis.run. run_monad. rewrite Eself. cbn.
  rewrite (qgis_verify_import_fails h p _ _ I). reflexivity.
Qed.

Lemma qgis_run_writes_path_when_import_fails_witness :
  Distribution.qgis_path (distribution fresh_state) = None
  /\ Distribution.qgis_path
       (distribution
          (final (CheckQgis.run host_without_qgis_executable)
             (set_check_qgis_self (Some "/usr") fresh_state)))
     = Some "/usr".
Proof.
  split; [reflexivity|].
  rewrite (qgis_run_writes_path_when_import_fails host_without_qgis_executable
             (set_check_qgis_self (Some "/usr") fresh_state) "/usr" "qgis.core"
             eq_refl eq_refl).
  reflexivity.
Defined.

(* ===================================================================== *)
(** ** The git-sha writer *)
(* ===================================================================== *)

(** [read_git_sha_key] reads the host and nothing else. *)
Lemma read_git_sha_key_by_host (h : Host) (s : State) :
  EggInfo.read_git_sha_key h s
  = (match git_Repo h with
     | inl e => inl e
     | inr repo =>
         match head_object_hexsha repo with
         | inl e => inl e
         | inr key =>
             match is_dirty repo with
             | inl e => inl e
             | inr true => inr (key ++ EggInfo.dirty_annotation)
             | inr false => inr key
             end
         end
     end, s).
Proof.
  unfold EggInfo.read_git_sha_key. run_monad.
  destruct (git_Repo h) as [e|repo]; cbn; [reflexivity|].
  destruct (head_object_hexsha repo) as [e|key]; cbn; [reflexivity|].
  destruct (is_dirty repo) as [e|[|]]; reflexivity.
Qed.

(** The writer, by what the git calls give. *)
Lemma write_git_sha_key_by_host (h : Host) (s : State) (basename filename : string) :
  Distribution.include_git_sha_key (distribution s) = true ->
  EggInfo.write_git_sha_key h basename filename s
  = match fst (EggInfo.read_git_sha_key h s) with
    | inr key =>
        (inr tt,
         add_event (WriteOrDeleteFile (fst (PosixPath.splitext basename)) filename key) s)
    | inl e =>
        if handled_by_git_sha_writer e
        then (inr tt,
              add_event (WriteOrDeleteFile (fst (PosixPath.splitext basename)) filename
                           "Could not obtain git sha key.") s)
        else (inl e, s)
    end.
Proof.
  intros Enabled. unfold EggInfo.write_git_sha_key, handled_by_git_sha_writer.
  run_monad. rewrite Enabled. rewrite read_git_sha_key_by_host. cbn.
  destruct (git_Repo h) as [e|repo]; cbn.
  - destruct (is_InvalidGitRepositoryError e); cbn; [reflexivity|].
    destruct (is_ImportError e); reflexivity.
  - destruct (head_object_hexsha repo) as [e|key]; cbn.
    + destruct (is_InvalidGitRepositoryError e); cbn; [reflexivity|].
      destruct (is_ImportError e); reflexivity.
    + destruct (is_dirty repo) as [e|[|]]; cbn; try reflexivity.
      destruct (is_InvalidGitRepositoryError e); cbn; [reflexivity|].
      destruct (is_ImportError e); reflexivity.
Qed.

Lemma read_git_sha_key_raises (h : Host) (s : State) (e : exn) :
  git_failure h = Some e -> fst (EggInfo.read_git_sha_key h s) = inl e.
Proof.
  unfold git_failure. rewrite read_git_sha_key_by_host. cbn.
  destruct (git_Repo h) as [e1|repo]; [congruence|].
  destruct (head_object_hexsha repo) as [e2|key]; [congruence|].
  destruct (is_dirty repo) as [e3|d]; [congruence | discriminate].
Qed.

(** C8, as amended.  With the writer enabled: when one of the git calls
    raises [InvalidGitRepositoryError] or an [ImportError], the placeholder
    is written and nothing is raised; when the calls return, the hash is
    written, followed by the annotation if the work tree is dirty; when one
    of the git calls raises any other exception, that exception goes on to
    the caller and nothing is written. *)
Theorem write_git_sha_key_substitutes_placeholder
  (h : Host) (s : State) (basename filename : string) :
  Distribution.include_git_sha_key (distribution s) = true ->
  (forall e,
     git_failure h = Some e ->
     handled_by_git_sha_writer e = true ->
     outcome (EggInfo.write_git_sha_key h basename filename) s = inr tt
     /\ new_events (EggInfo.write_git_sha_key h basename filename) s
        = [WriteOrDeleteFile (fst (PosixPath.splitext basename)) filename
             "Could not obtain git sha key."])
  /\ (forall repo key dirty,
        git_Repo h = inr repo ->
        head_object_hexsha repo = inr key ->
        is_dirty repo = inr dirty ->
        outcome (EggInfo.write_git_sha_key h basename filename) s = inr tt
        /\ new_events (EggInfo.write_git_sha_key h basename filename) s
           = [WriteOrDeleteFile (fst (PosixPath.splitext basename)) filename
                (if dirty
                 then key ++ " + uncommited changes (built from dirty repository)."
                 else key)])
  /\ (forall e,
        git_failure h = Some e ->
        handled_by_git_sha_writer e = false ->
        outcome (EggInfo.write_git_sha_key h basename filename) s = inl e
        /\ new_events (EggInfo.write_git_sha_key h basename filename) s = []).
Proof.
  intros Enabled. unfold new_events, outcome, final.
  rewrite (write_git_sha_key_by_host h s basename filename Enabled).
  split; [|split].
  - intros e G H. rewrite (read_git_sha_key_raises h s e G), H. cbn.
    rewrite skipn_length_app. auto.
  - intros repo key dirty R K D. rewrite read_git_sha_key_by_host, R, K, D. cbn.
    destruct dirty; cbn; rewrite skipn_length_app; auto.
  - intros e G H. rewrite (read_git_sha_key_raises h s e G), H. cbn.
    rewrite skipn_length_self. auto.
Qed.

Lemma write_git_sha_key_substitutes_placeholder_witness :
  (outcome (EggInfo.write_git_sha_key bare_host "git_sha_key.txt" "egg/git_sha_key.txt")
     fresh_state = inr tt
   /\ new_events (EggInfo.write_git_sha_key bare_host "git_sha_key.txt" "egg/git_sha_key.txt")
        fresh_state
      = [WriteOrDeleteFile (fst (PosixPath.splitext "git_sha_key.txt")) "egg/git_sha_key.txt"
           "Could not obtain git sha key."])
  /\ (outcome (EggInfo.write_git_sha_key linux_host "git_sha_key.txt" "egg/git_sha_key.txt")
        fresh_state = inr tt
      /\ new_events (EggInfo.write_git_sha_key linux_host "git_sha_key.txt" "egg/git_sha_key.txt")
           fresh_state
         = [WriteOrDeleteFile (fst (PosixPath.splitext "git_sha_key.txt")) "egg/git_sha_key.txt"
              ("0f3c9a1" ++ " + uncommited changes (built from dirty repository).")])
  /\ (outcome (EggInfo.write_git_sha_key host_in_empty_repository "git_sha_key.txt"
                 "egg/git_sha_key.txt") fresh_state
      = inl (ValueError "Reference at 'refs/heads/master' does not exist")
      /\ new_events (EggInfo.write_git_sha_key host_in_empty_repository "git_sha_key.txt"
                       "egg/git_sha_key.txt") fresh_state = []).
Proof.
  split; [|split].
  - apply (proj1 (write_git_sha_key_substitutes_placeholder bare_host fresh_state
                    "git_sha_key.txt" "egg/git_sha_key.txt" eq_refl)
             (InvalidGitRepositoryError "/tmp/build")); reflexivity.
  - apply (proj1 (proj2 (write_git_sha_key_substitutes_placeholder linux_host fresh_state
                           "git_sha_key.txt" "egg/git_sha_key.txt" eq_refl))
             {| head_object_hexsha := inr "0f3c9a1"; is_dirty := inr true |}
             "0f3c9a1" true); reflexivity.
  - apply (proj2 (proj2 (write_git_sha_key_substitutes_placeholder
                           host_in_empty_repository fresh_state
                           "git_sha_key.txt" "egg/git_sha_key.txt" eq_refl))
             (ValueError "Reference at 'refs/heads/master' does not exist"));
      reflexivity.
Defined.

(** C8, as stated, fails: in a repository that has no commit yet the hash
    cannot be obtained, GitPython raises a [ValueError] for the head
    reference, neither [except] clause names it, and the writer raises it
    in turn without writing the placeholder. *)
Lemma write_git_sha_key_raises_in_empty_repository :
  Distribution.include_git_sha_key (distribution fresh_state) = true
  /\ outcome (EggInfo.write_git_sha_key host_in_empty_repository "git_sha_key.txt"
                "egg/git_sha_key.txt") fresh_state
     = inl (ValueError "Reference at 'refs/heads/master' does not exist")
  /\ events (final (EggInfo.write_git_sha_key host_in_empty_repository "git_sha_key.txt"
                      "egg/git_sha_key.txt") fresh_state) = [].
Proof. repeat split. Qed.

(* ===================================================================== *)
(** ** More on [CheckGmsh.run]: the version check *)
(* ===================================================================== *)

Lemma append_cons (c : ascii) (s t : string) : String c s ++ t = String c (s ++ t).
Proof. reflexivity. Qed.

Lemma isspace_line_feed : PyStr.isspace PyStr.LF = true.
Proof. reflexivity. Qed.

(** [readline] stops after the first line feed. *)
Lemma readline_first_line (line rest : string) :
  PyStr.contains_char PyStr.LF line = false ->
  PyStr.readline (line ++ String PyStr.LF rest) = line ++ String PyStr.LF "".
Proof.
  induction line as [|c line IH]; intros N.
  - reflexivity.
  - rewrite !append_cons.
    change (Ascii.eqb PyStr.LF c || PyStr.contains_char PyStr.LF line = false) in N.
    apply orb_false_elim in N as [Nc Nl].
    change (PyStr.readline (String c (line ++ String PyStr.LF rest)))
      with (if Ascii.eqb c PyStr.LF then String c EmptyString
            else String c (PyStr.readline (line ++ String PyStr.LF rest))).
    rewrite Ascii.eqb_sym, Nc, (IH Nl). reflexivity.
Qed.

Lemma rstrip_line_feed (s : string) :
  PyStr.rstrip (s ++ String PyStr.LF "") = PyStr.rstrip s.
Proof.
  induction s as [|c s IH].
  - reflexivity.
  - rewrite append_cons. cbn [PyStr.rstrip]. rewrite IH. reflexivity.
Qed.

Lemma lstrip_line_feed (s : string) :
  PyStr.lstrip (s ++ String PyStr.LF "")
  = match PyStr.lstrip s with
    | EmptyString => EmptyString
    | String c r => String c r ++ String PyStr.LF ""
    end.
Proof.
  induction s as [|c s IH].
  - reflexivity.
  - rewrite append_cons. cbn [PyStr.lstrip].
    destruct (PyStr.isspace c); [exact IH | reflexivity].
Qed.

(** [strip] removes the line feed that ends a line of output. *)
Lemma strip_line_feed (s : string) :
  PyStr.strip (s ++ String PyStr.LF "") = PyStr.strip s.
Proof.
  unfold PyStr.strip. rewrite lstrip_line_feed.
  destruct (PyStr.lstrip s) as [|c r]; [reflexivity | apply rstrip_line_feed].
Qed.

(** X1.  When the gmsh binary exits with a status other than 0,
    [CheckGmsh.run] announces at FATAL and raises [DistutilsSetupError]
    naming the binary; the distribution is not written, and the temporary
    file that was opened for the output is not closed. *)
Theorem gmsh_run_nonzero_exit_is_fatal
  (h : Host) (s : State) (p : string) (returncode : Z) (output : string) :
  check_gmsh_self s = Some p ->
  (path_isdir h p = true -> path_isfile h (PosixPath.join p "gmsh") = true) ->
  popen_wait h [gmsh_binary h p; "--version"] = inr (returncode, output) ->
  returncode <> 0%Z ->
  outcome (CheckGmsh.run h) s
  = inl (DistutilsSetupError ("Could not find gmsh at " ++ gmsh_binary h p))
  /\ new_events (CheckGmsh.run h) s
     = [TemporaryFileOpen; Popen [gmsh_binary h p; "--version"];
        Announce FATAL ("Could not find gmsh at " ++ gmsh_binary h p)]
  /\ distribution (final (CheckGmsh.run h) s) = distribution s.
Proof.
  intros Eself F P N. apply Z.eqb_neq in N. unfold gmsh_binary in *.
  destruct (path_isdir h p) eqn:D.
  - specialize (F eq_refl). run_gmsh h.
    repeat rewrite <- app_assoc. rewrite skipn_length_app. auto.
  - clear F. run_gmsh h.
    repeat rewrite <- app_assoc. rewrite skipn_length_app. auto.
Qed.

Lemma gmsh_run_nonzero_exit_is_fatal_witness :
  outcome (CheckGmsh.run host_with_broken_tools)
    (set_check_gmsh_self (Some "/usr/bin") fresh_state)
  = inl (DistutilsSetupError
           ("Could not find gmsh at " ++ gmsh_binary host_with_broken_tools "/usr/bin"))
  /\ new_events (CheckGmsh.run host_with_broken_tools)
       (set_check_gmsh_self (Some "/usr/bin") fresh_state)
     = [TemporaryFileOpen;
        Popen [gmsh_binary host_with_broken_tools "/usr/bin"; "--version"];
        Announce FATAL
          ("Could not find gmsh at " ++ gmsh_binary host_with_broken_tools "/usr/bin")]
  /\ distribution
       (final (CheckGmsh.run host_with_broken_tools)
          (set_check_gmsh_self (Some "/usr/bin") fresh_state))
     = distribution (set_check_gmsh_self (Some "/usr/bin") fresh_state).
Proof.
  apply (gmsh_run_nonzero_exit_is_fatal host_with_broken_tools
           (set_check_gmsh_self (Some "/usr/bin") fresh_state) "/usr/bin"
           1%Z "gmsh: cannot open display");
    [reflexivity | reflexivity | reflexivity | discriminate].
Defined.

Lemma readline_without_line_feed (output : string) :
  PyStr.contains_char PyStr.LF output = false -> PyStr.readline output = output.
Proof.
  induction output as [|c output IH]; intros N; [reflexivity|].
  change (Ascii.eqb PyStr.LF c || PyStr.contains_char PyStr.LF output = false) in N.
  apply orb_false_elim in N as [Nc Nl].
  change (PyStr.readline (String c output))
    with (if Ascii.eqb c PyStr.LF then String c EmptyString
          else String c (PyStr.readline output)).
  rewrite Ascii.eqb_sym, Nc, (IH Nl). reflexivity.
Qed.

(** X2.  When the gmsh binary exits with status 0, [CheckGmsh.run] decodes
    the first line of the output, and nothing of what follows the first
    line feed: the first line is the output up to and with its first line
    feed, or all of it when it has none.  When the decoding returns, the
    run announces the decoded line, stripped, closes the temporary file,
    writes the path of the binary to the distribution and returns.  When
    the decoding raises, the exception goes on to the caller, the temporary
    file is not closed and the distribution is not written. *)
Theorem gmsh_run_reports_first_line
  (h : Host) (s : State) (p output : string) :
  check_gmsh_self s = Some p ->
  (path_isdir h p = true -> path_isfile h (PosixPath.join p "gmsh") = true) ->
  popen_wait h [gmsh_binary h p; "--version"] = inr (0%Z, output) ->
  (forall text,
     decode_utf8 h (PyStr.readline output) = inr text ->
     outcome (CheckGmsh.run h) s = inr tt
     /\ new_events (CheckGmsh.run h) s
        = [TemporaryFileOpen; Popen [gmsh_binary h p; "--version"];
           Announce INFO ("Found gmsh version " ++ PyStr.strip text
                          ++ " at " ++ gmsh_binary h p);
           TemporaryFileClose]
     /\ Distribution.gmsh_bin_path (distribution (final (CheckGmsh.run h) s))
        = Some (gmsh_binary h p))
  /\ (forall e,
        decode_utf8 h (PyStr.readline output) = inl e ->
        outcome (CheckGmsh.run h) s = inl e
        /\ new_events (CheckGmsh.run h) s
           = [TemporaryFileOpen; Popen [gmsh_binary h p; "--version"]]
        /\ distribution (final (CheckGmsh.run h) s) = distribution s)
  /\ (forall line rest,
        PyStr.contains_char PyStr.LF line = false ->
        PyStr.readline (line ++ String PyStr.LF rest) = line ++ String PyStr.LF "")
  /\ (forall whole,
        PyStr.contains_char PyStr.LF whole = false ->
        PyStr.readline whole = whole).
Proof.
  intros Eself F P.
  split; [|split; [|split]].
  - intros text T. unfold gmsh_binary in *.
    destruct (path_isdir h p) eqn:D.
    + specialize (F eq_refl). run_gmsh h.
      repeat rewrite <- app_assoc. rewrite skipn_length_app. auto.
    + clear F. run_gmsh h.
      repeat rewrite <- app_assoc. rewrite skipn_length_app. auto.
  - intros e T. unfold gmsh_binary in *.
    destruct (path_isdir h p) eqn:D.
    + specialize (F eq_refl). run_gmsh h.
      repeat rewrite <- app_assoc. rewrite skipn_length_app. auto.
    + clear F. run_gmsh h.
      repeat rewrite <- app_assoc. rewrite skipn_length_app. auto.
  - intros line rest N. apply readline_first_line. exact N.
  - apply readline_without_line_feed.
Qed.

Lemma gmsh_run_reports_first_line_witness :
  (outcome (CheckGmsh.run linux_host)
     (set_check_gmsh_self (Some "/usr/bin") fresh_state) = inr tt
   /\ new_events (CheckGmsh.run linux_host)
        (set_check_gmsh_self (Some "/usr/bin") fresh_state)
      = [TemporaryFileOpen; Popen [gmsh_binary linux_host "/usr/bin"; "--version"];
         Announce INFO ("Found gmsh version "
                        ++ PyStr.strip ("MeshGen 4.2.0" ++ String PyStr.LF "")
                        ++ " at " ++ gmsh_binary linux_host "/usr/bin");
         TemporaryFileClose]
   /\ Distribution.gmsh_bin_path
        (distribution (final (CheckGmsh.run linux_host)
                         (set_check_gmsh_self (Some "/usr/bin") fresh_state)))
      = Some (gmsh_binary linux_host "/usr/bin"))
  /\ (outcome (CheckGmsh.run host_with_garbled_gmsh_output)
        (set_check_gmsh_self (Some "/usr/bin") fresh_state)
      = inl (UnicodeDecodeError "'utf-8' codec can't decode bytes")
      /\ new_events (CheckGmsh.run host_with_garbled_gmsh_output)
           (set_check_gmsh_self (Some "/usr/bin") fresh_state)
         = [TemporaryFileOpen;
            Popen [gmsh_binary host_with_garbled_gmsh_output "/usr/bin"; "--version"]]
      /\ distribution (final (CheckGmsh.run host_with_garbled_gmsh_output)
                         (set_check_gmsh_self (Some "/usr/bin") fresh_state))
         = distribution (set_check_gmsh_self (Some "/usr/bin") fresh_state))
  /\ PyStr.readline ("MeshGen 4.2.0" ++ String PyStr.LF "build 1234")
     = "MeshGen 4.2.0" ++ String PyStr.LF ""
  /\ PyStr.readline "MeshGen 4.2.0" = "MeshGen 4.2.0".
Proof.
  split; [|split; [|split]].
  - apply (proj1 (gmsh_run_reports_first_line linux_host
                    (set_check_gmsh_self (Some "/usr/bin") fresh_state) "/usr/bin"
                    ("MeshGen 4.2.0" ++ String PyStr.LF "build 1234")
                    eq_refl (fun _ => eq_refl) eq_refl)
             ("MeshGen 4.2.0" ++ String PyStr.LF "")).
    reflexivity.
  - apply (proj1 (proj2 (gmsh_run_reports_first_line host_with_garbled_gmsh_output
                           (set_check_gmsh_self (Some "/usr/bin") fresh_state) "/usr/bin"
                           (String (ascii_of_nat 255) ("gmsh" ++ String PyStr.LF "4.2.0"))
                           eq_refl (fun _ => eq_refl) eq_refl))
             (UnicodeDecodeError "'utf-8' codec can't decode bytes")).
    reflexivity.
  - apply (proj1 (proj2 (proj2 (gmsh_run_reports_first_line linux_host
                                  (set_check_gmsh_self (Some "/usr/bin") fresh_state)
                                  "/usr/bin"
                                  ("MeshGen 4.2.0" ++ String PyStr.LF "build 1234")
                                  eq_refl (fun _ => eq_refl) eq_refl)))
             "MeshGen 4.2.0" "build 1234"); reflexivity.
  - apply (proj2 (proj2 (proj2 (gmsh_run_reports_first_line linux_host
                                  (set_check_gmsh_self (Some "/usr/bin") fresh_state)
                                  "/usr/bin"
                                  ("MeshGen 4.2.0" ++ String PyStr.LF "build 1234")
                                  eq_refl (fun _ => eq_refl) eq_refl)))
             "MeshGen 4.2.0").
    reflexivity.
Defined.

(** X3, X4: witnesses of the two lemmas on the distribution after
    [CheckGmsh.run]: a run that raises, a run that returns. *)
Lemma gmsh_run_raises_keeps_distribution_witness :
  distribution (final (CheckGmsh.run host_with_broken_tools)
                  (set_check_gmsh_self (Some "/usr/bin/gmsh") fresh_state))
  = distribution (set_check_gmsh_self (Some "/usr/bin/gmsh") fresh_state).
Proof.
  apply (gmsh_run_raises_keeps_distribution host_with_broken_tools
           (set_check_gmsh_self (Some "/usr/bin/gmsh") fresh_state)
           (DistutilsSetupError "Could not find gmsh at /usr/bin/gmsh")).
  reflexivity.
Defined.

Lemma gmsh_run_returns_writes_path_witness :
  Distribution.gmsh_bin_path
    (distribution (final (CheckGmsh.run linux_host)
                     (set_check_gmsh_self (Some "/usr/bin/gmsh") fresh_state)))
  = check_gmsh_self (final (CheckGmsh.run linux_host)
                       (set_check_gmsh_self (Some "/usr/bin/gmsh") fresh_state))
  /\ check_gmsh_self (final (CheckGmsh.run linux_host)
                        (set_check_gmsh_self (Some "/usr/bin/gmsh") fresh_state))
     <> None.
Proof.
  apply (gmsh_run_returns_writes_path linux_host
           (set_check_gmsh_self (Some "/usr/bin/gmsh") fresh_state)).
  reflexivity.
Defined.

(* ===================================================================== *)
(** ** More on [CheckQgis.run] *)
(* ===================================================================== *)

(** X19: a witness of the lemma on the distribution after a
    [CheckQgis.run] that raises. *)
Lemma qgis_run_raises_keeps_distribution_witness :
  distribution (final (CheckQgis.run host_with_broken_tools)
                  (set_check_qgis_self (Some "/usr") fresh_state))
  = distribution (set_check_qgis_self (Some "/usr") fresh_state).
Proof.
  apply (qgis_run_raises_keeps_distribution host_with_broken_tools
           (set_check_qgis_self (Some "/usr") fresh_state)
           (AttributeError "type object 'Qgis' has no attribute 'QGIS_VERSION'")).
  reflexivity.
Defined.

(** X5.  [CheckQgis.run] never raises a [ModuleNotFoundError]: one that
    comes out of any statement of its [try] block (the import, or a call
    into qgis) is caught.  What it does raise, with a path in the command
    attribute, is what the [try] block raised. *)
Theorem qgis_run_never_raises_ModuleNotFoundError (h : Host) (s : State) (e : exn) :
  outcome (CheckQgis.run h) s = inl e ->
  is_ModuleNotFoundError e = false
  /\ forall p,
       check_qgis_self s = Some p ->
       outcome (CheckQgis.verify h p)
         (add_event (Announce INFO ("Looking for qgis installation at " ++ p)) s)
       = inl e.
Proof.
  unfold CheckQgis.run. run_monad.
  destruct (check_qgis_self s) as [p|]; cbn.
  - destruct (CheckQgis.verify h p _) as [[e'|[]] s'] eqn:V; cbn.
    + destruct (is_ModuleNotFoundError e') eqn:N; cbn; intros E;
        [discriminate E|].
      injection E as <-. split; [exact N|].
      intros q Q. injection Q as <-. rewrite V. reflexivity.
    + intros E. discriminate E.
  - intros E. injection E as <-. split; [reflexivity|].
    intros p P. discriminate P.
Qed.

Lemma qgis_run_never_raises_ModuleNotFoundError_witness :
  is_ModuleNotFoundError
    (AttributeError "type object 'Qgis' has no attribute 'QGIS_VERSION'") = false
  /\ outcome (CheckQgis.verify host_with_broken_tools "/usr")
       (add_event (Announce INFO ("Looking for qgis installation at " ++ "/usr"))
          (set_check_qgis_self (Some "/usr") fresh_state))
     = inl (AttributeError "type object 'Qgis' has no attribute 'QGIS_VERSION'").
Proof.
  destruct (qgis_run_never_raises_ModuleNotFoundError host_with_broken_tools
              (set_check_qgis_self (Some "/usr") fresh_state)
              (AttributeError "type object 'Qgis' has no attribute 'QGIS_VERSION'")
              eq_refl) as [N V].
  split; [exact N | exact (V "/usr" eq_refl)].
Defined.

(** [verify] sets the two variables of the environment before anything
    that can raise, and touches no other variable and no attribute of a
    command. *)
Lemma qgis_verify_environ (h : Host) (p : string) (s : State) (key : string) :
  environ (snd (CheckQgis.verify h p s)) key
  = environ (set_environ "QT_QPA_PLATFORM" "offscreen"
               (set_environ "QT_LOGGING_RULES" "qt5ct.debug=false" s)) key
  /\ check_qgis_self (snd (CheckQgis.verify h p s)) = check_qgis_self s
  /\ check_gmsh_self (snd (CheckQgis.verify h p s)) = check_gmsh_self s.
Proof.
  unfold CheckQgis.verify, CheckQgis.lookup_version, CheckQgis.getattr_QGIS_VERSION.
  run_monad. cbn.
  destruct (import_qgis_core h) as [e|core]; cbn; [auto|].
  destruct (QgsApplication_call core) as [e|app]; cbn; [auto|].
  destruct (setPrefixPath app p true); cbn; [auto|].
  destruct (initQgis app); cbn; [auto|].
  destruct (QGis core) as [[v|]|]; cbn; auto;
    destruct (Qgis core) as [[w|]|]; auto.
Qed.

(** X6.  With a path in the command attribute, [CheckQgis.run] leaves
    [QT_LOGGING_RULES] and [QT_QPA_PLATFORM] set in the environment whether
    it returns or raises, changes no other variable, and does not change
    the path of the command. *)
Theorem qgis_run_sets_environment (h : Host) (s : State) (p : string) :
  check_qgis_self s = Some p ->
  environ (final (CheckQgis.run h) s) "QT_LOGGING_RULES" = Some "qt5ct.debug=false"
  /\ environ (final (CheckQgis.run h) s) "QT_QPA_PLATFORM" = Some "offscreen"
  /\ (forall key,
        key <> "QT_LOGGING_RULES" -> key <> "QT_QPA_PLATFORM" ->
        environ (final (CheckQgis.run h) s) key = environ s key)
  /\ check_qgis_self (final (CheckQgis.run h) s) = Some p.
Proof.
  intros Eself.
  assert (K : forall key,
             environ (final (CheckQgis.run h) s) key
             = environ (set_environ "QT_QPA_PLATFORM" "offscreen"
                          (set_environ "QT_LOGGING_RULES" "qt5ct.debug=false" s)) key
             /\ check_qgis_self (final (CheckQgis.run h) s) = Some p).
  { intros key. unfold CheckQgis.run. run_monad. rewrite Eself. cbn.
    pose proof (qgis_verify_environ h p
                  (add_event (Announce INFO ("Looking for qgis installation at " ++ p)) s)
                  key) as [V [Q _]].
    destruct (CheckQgis.verify h p _) as [[e'|[]] s']; cbn in *.
    - destruct (is_ModuleNotFoundError e'); cbn; rewrite V, Q; auto.
    - rewrite V, Q. auto. }
  split; [|split; [|split]].
  - rewrite (proj1 (K _)). reflexivity.
  - rewrite (proj1 (K _)). reflexivity.
  - intros key N1 N2. rewrite (proj1 (K key)). cbn.
    apply String.eqb_neq in N1, N2. rewrite N1, N2. reflexivity.
  - exact (proj2 (K "")).
Qed.

Lemma qgis_run_sets_environment_witness :
  environ (final (CheckQgis.run host_with_broken_tools)
             (set_check_qgis_self (Some "/usr") fresh_state)) "QT_LOGGING_RULES"
  = Some "qt5ct.debug=false"
  /\ environ (final (CheckQgis.run host_with_broken_tools)
                (set_check_qgis_self (Some "/usr") fresh_state)) "QT_QPA_PLATFORM"
     = Some "offscreen"
  /\ (forall key,
        key <> "QT_LOGGING_RULES" -> key <> "QT_QPA_PLATFORM" ->
        environ (final (CheckQgis.run host_with_broken_tools)
                   (set_check_qgis_self (Some "/usr") fresh_state)) key
        = environ (set_check_qgis_self (Some "/usr") fresh_state) key)
  /\ check_qgis_self (final (CheckQgis.run host_with_broken_tools)
                        (set_check_qgis_self (Some "/usr") fresh_state))
     = Some "/usr".
Proof.
  apply (qgis_run_sets_environment host_with_broken_tools
           (set_check_qgis_self (Some "/usr") fresh_state) "/usr").
  reflexivity.
Defined.

Lemma lookup_version_found (core : QgisCore) (version : string) (s : State) :
  version_of (QGis core) = Some version
  \/ (version_of (QGis core) = None /\ version_of (Qgis core) = Some version) ->
  CheckQgis.lookup_version core s = (inr version, s).
Proof.
  unfold CheckQgis.lookup_version, try_except. intros [E1|[E1 E2]].
  - rewrite (getattr_QGIS_VERSION_present "QGis" _ version s E1). reflexivity.
  - destruct (getattr_QGIS_VERSION_absent "QGis" _ s E1) as [msg A]. rewrite A. cbn.
    apply getattr_QGIS_VERSION_present. exact E2.
Qed.

(** X7.  On a host where [qgis.core] imports, the application object is
    built, [setPrefixPath] and [initQgis] return and one of the two classes
    gives a version, [CheckQgis.run] returns: it has pointed the application
    at the path of the command (with the default paths on), announced the
    version and the path at INFO, and written the path to the
    distribution. *)
Theorem qgis_run_verifies_working_installation
  (h : Host) (s : State) (p version : string) (core : QgisCore) (app : QgsApplication) :
  check_qgis_self s = Some p ->
  import_qgis_core h = inr core ->
  QgsApplication_call core = inr app ->
  setPrefixPath app p true = None ->
  initQgis app = None ->
  version_of (QGis core) = Some version
  \/ (version_of (QGis core) = None /\ version_of (Qgis core) = Some version) ->
  outcome (CheckQgis.run h) s = inr tt
  /\ new_events (CheckQgis.run h) s
     = [Announce INFO ("Looking for qgis installation at " ++ p);
        SetEnviron "QT_LOGGING_RULES" "qt5ct.debug=false";
        SetEnviron "QT_QPA_PLATFORM" "offscreen";
        ImportModule "qgis.core";
        QgsApplicationNew;
        SetPrefixPath p true;
        InitQgis;
        Announce INFO ("Found QGIS version " ++ version ++ " at " ++ p)]
  /\ Distribution.qgis_path (distribution (final (CheckQgis.run h) s)) = Some p.
Proof.
  intros Eself I A P Q V. unfold CheckQgis.run, CheckQgis.verify. run_monad.
  rewrite Eself. cbn. rewrite I. cbn. rewrite A. cbn. rewrite P. cbn.
  rewrite Q. cbn. rewrite (lookup_version_found core version _ V). cbn.
  repeat rewrite <- app_assoc. rewrite skipn_length_app. auto.
Qed.

Lemma qgis_run_verifies_working_installation_witness :
  outcome (CheckQgis.run linux_host) (set_check_qgis_self (Some "/usr") fresh_state)
  = inr tt
  /\ new_events (CheckQgis.run linux_host) (set_check_qgis_self (Some "/usr") fresh_state)
     = [Announce INFO ("Looking for qgis installation at " ++ "/usr");
        SetEnviron "QT_LOGGING_RULES" "qt5ct.debug=false";
        SetEnviron "QT_QPA_PLATFORM" "offscreen";
        ImportModule "qgis.core";
        QgsApplicationNew;
        SetPrefixPath "/usr" true;
        InitQgis;
        Announce INFO ("Found QGIS version " ++ "3.10.4" ++ " at " ++ "/usr")]
  /\ Distribution.qgis_path
       (distribution (final (CheckQgis.run linux_host)
                        (set_check_qgis_self (Some "/usr") fresh_state)))
     = Some "/usr".
Proof.
  apply (qgis_run_verifies_working_installation linux_host
           (set_check_qgis_self (Some "/usr") fresh_state) "/usr" "3.10.4"
           core_qgis3 running_app); try reflexivity.
  right. split; reflexivity.
Defined.

(* ===================================================================== *)
(** ** More on the locators *)
(* ===================================================================== *)

(** [CheckQgis.locate], by what the host answers. *)
Lemma qgis_locate_by_host (h : Host) (s : State) :
  CheckQgis.locate h s
  = match import_qgis h with
    | inl e => (inl e, add_event (ImportModule "qgis") s)
    | inr pkg =>
        match qgis__path__ pkg with
        | [] => (inl (IndexError "list index out of range"),
                 add_event (ImportModule "qgis") s)
        | first :: _ =>
            match check_output h ["which"; "qgis"] with
            | inl e =>
                (inl e, add_event (CheckOutput ["which"; "qgis"])
                          (add_event (ImportModule "qgis") s))
            | inr out =>
                (inr tt,
                 set_check_qgis_self (Some (CheckQgis.derive_qgis_path first out))
                   (add_event (CheckOutput ["which"; "qgis"])
                      (add_event (ImportModule "qgis") s)))
            end
        end
    end.
Proof.
  unfold CheckQgis.locate. run_monad.
  destruct (import_qgis h) as [e|pkg]; cbn; [reflexivity|].
  destruct (qgis__path__ pkg) as [|first rest]; cbn; [reflexivity|].
  destruct (check_output h _); reflexivity.
Qed.

Lemma assert_path_returns (h : Host) (attr p : string) (s : State) :
  fst (Dist.assert_path h attr (Some p) s) = inr tt ->
  path_exists h p = true /\ snd (Dist.assert_path h attr (Some p) s) = s.
Proof.
  destruct (path_exists h p) eqn:E.
  - rewrite assert_path_existing by exact E. auto.
  - rewrite assert_path_missing by exact E. intros X. discriminate X.
Qed.

(** Where [CheckGmsh.finalize_options] returns, the command attribute holds
    a path that exists. *)
Lemma gmsh_finalize_returns (h : Host) (s : State) :
  outcome (CheckGmsh.finalize_options h) s = inr tt ->
  exists p,
    check_gmsh_self (final (CheckGmsh.finalize_options h) s) = Some p
    /\ path_exists h p = true.
Proof.
  unfold outcome, final.
  destruct (override (check_gmsh_self s) (Distribution.gmsh_bin_path (distribution s)))
    as [p|] eqn:O.
  - rewrite (gmsh_finalize_with_override h s p O). intros R.
    destruct (assert_path_returns h _ p _ R) as [E S]. rewrite S.
    exists p. auto.
  - rewrite (gmsh_finalize_without_override h s O), gmsh_locate_by_platform.
    destruct (gmsh_lookup_argv (platform_system h)) as [argv|];
      [|intros R; discriminate R].
    destruct (check_output h argv) as [e|out].
    + destruct (is_CalledProcessError e); intros R; discriminate R.
    + intros R. destruct (assert_path_returns h _ _ _ R) as [E S]. rewrite S.
      exists (PyStr.strip out). auto.
Qed.

Lemma qgis_finalize_returns (h : Host) (s : State) :
  outcome (CheckQgis.finalize_options h) s = inr tt ->
  exists p,
    check_qgis_self (final (CheckQgis.finalize_options h) s) = Some p
    /\ path_exists h p = true.
Proof.
  unfold outcome, final.
  destruct (override (check_qgis_self s) (Distribution.qgis_path (distribution s)))
    as [p|] eqn:O.
  - rewrite (qgis_finalize_with_override h s p O). intros R.
    destruct (assert_path_returns h _ p _ R) as [E S]. rewrite S.
    exists p. auto.
  - rewrite (qgis_finalize_without_override h s O), qgis_locate_by_host.
    destruct (import_qgis h) as [e|pkg].
    + destruct (is_ModuleNotFoundError e); intros R; discriminate R.
    + destruct (qgis__path__ pkg) as [|first rest]; [intros R; discriminate R|].
      destruct (check_output h _) as [e|out].
      * destruct (is_ModuleNotFoundError e); intros R; discriminate R.
      * cbn. intros R. destruct (assert_path_returns h _ _ _ R) as [E S].
        rewrite S. exists (CheckQgis.derive_qgis_path first out). auto.
Qed.

(** X8.  [finalize_options] is idempotent where it succeeds: once it has
    returned, running it again (of either command) returns again, probes
    nothing, logs nothing and changes nothing. *)
Theorem finalize_options_again_changes_nothing (h : Host) (s : State) :
  (outcome (CheckGmsh.finalize_options h) s = inr tt ->
   CheckGmsh.finalize_options h (final (CheckGmsh.finalize_options h) s)
   = (inr tt, final (CheckGmsh.finalize_options h) s))
  /\ (outcome (CheckQgis.finalize_options h) s = inr tt ->
      CheckQgis.finalize_options h (final (CheckQgis.finalize_options h) s)
      = (inr tt, final (CheckQgis.finalize_options h) s)).
Proof.
  split; intros R.
  - destruct (gmsh_finalize_returns h s R) as (p & Eself & E).
    rewrite (gmsh_finalize_with_override h _ p) by (rewrite Eself; reflexivity).
    rewrite set_check_gmsh_self_same by exact Eself.
    apply assert_path_existing. exact E.
  - destruct (qgis_finalize_returns h s R) as (p & Eself & E).
    rewrite (qgis_finalize_with_override h _ p) by (rewrite Eself; reflexivity).
    rewrite set_check_qgis_self_same by exact Eself.
    apply assert_path_existing. exact E.
Qed.

Lemma finalize_options_again_changes_nothing_witness :
  CheckGmsh.finalize_options linux_host
    (final (CheckGmsh.finalize_options linux_host) fresh_state)
  = (inr tt, final (CheckGmsh.finalize_options linux_host) fresh_state)
  /\ CheckQgis.finalize_options linux_host
       (final (CheckQgis.finalize_options linux_host) fresh_state)
     = (inr tt, final (CheckQgis.finalize_options linux_host) fresh_state).
Proof.
  split.
  - apply (proj1 (finalize_options_again_changes_nothing linux_host fresh_state)).
    reflexivity.
  - apply (proj2 (finalize_options_again_changes_nothing linux_host fresh_state)).
    reflexivity.
Defined.

(** X9.  [finalize_options] of either command never assigns an attribute
    of the distribution, and never the path attribute of the other command,
    on any host and from any state, whether it returns or raises: only
    [run] writes to the distribution. *)
Theorem finalize_options_keeps_distribution (h : Host) (s : State) :
  (distribution (final (CheckGmsh.finalize_options h) s) = distribution s
   /\ check_qgis_self (final (CheckGmsh.finalize_options h) s) = check_qgis_self s)
  /\ (distribution (final (CheckQgis.finalize_options h) s) = distribution s
      /\ check_gmsh_self (final (CheckQgis.finalize_options h) s) = check_gmsh_self s).
Proof.
  unfold final. split.
  - destruct (override (check_gmsh_self s) (Distribution.gmsh_bin_path (distribution s)))
      as [p|] eqn:O.
    + rewrite (gmsh_finalize_with_override h s p O).
      destruct (assert_path_keeps_attributes h "gmsh_bin_path" p
                  (set_check_gmsh_self (Some p) s)) as (_ & Q & D).
      rewrite Q, D. auto.
    + rewrite (gmsh_finalize_without_override h s O), gmsh_locate_by_platform.
      destruct (gmsh_lookup_argv (platform_system h)) as [argv|]; [|auto].
      destruct (check_output h argv) as [e|out].
      * destruct (is_CalledProcessError e); auto.
      * match goal with
        | |- context [Dist.assert_path h ?a (Some ?q) ?st] =>
            destruct (assert_path_keeps_attributes h a q st) as (_ & Q & D)
        end.
        rewrite Q, D. auto.
  - destruct (override (check_qgis_self s) (Distribution.qgis_path (distribution s)))
      as [p|] eqn:O.
    + rewrite (qgis_finalize_with_override h s p O).
      destruct (assert_path_keeps_attributes h "qgis-path" p
                  (set_check_qgis_self (Some p) s)) as (G & _ & D).
      rewrite G, D. auto.
    + rewrite (qgis_finalize_without_override h s O), qgis_locate_by_host.
      destruct (import_qgis h) as [e|pkg].
      * destruct (is_ModuleNotFoundError e); auto.
      * destruct (qgis__path__ pkg) as [|first rest]; [auto|].
        destruct (check_output h _) as [e|out].
        -- destruct (is_ModuleNotFoundError e); auto.
        -- cbn.
           match goal with
           | |- context [Dist.assert_path h ?a (Some ?q) ?st] =>
               destruct (assert_path_keeps_attributes h a q st) as (G & _ & D)
           end.
           rewrite G, D. auto.
Qed.

(** X10.  Without an override, on a platform that has a lookup, when the
    lookup prints a path followed by a line feed, what
    [CheckGmsh.finalize_options] stores is the path stripped: the line feed
    is gone, and the stripped path is the one that is validated.  The call
    does this to the outside and no more: the ERROR announcement, the one
    lookup, and the FATAL announcement of the validator when the stripped
    path does not exist. *)
Theorem gmsh_finalize_stores_stripped_lookup
  (h : Host) (s : State) (argv : list string) (path : string) :
  override (check_gmsh_self s) (Distribution.gmsh_bin_path (distribution s)) = None ->
  gmsh_lookup_argv (platform_system h) = Some argv ->
  check_output h argv = inr (path ++ String PyStr.LF "") ->
  check_gmsh_self (final (CheckGmsh.finalize_options h) s) = Some (PyStr.strip path)
  /\ outcome (CheckGmsh.finalize_options h) s
     = (if path_exists h (PyStr.strip path) then inr tt
        else inl (DistutilsSetupError
                    (Dist.not_a_path_msg "gmsh_bin_path" (PyStr.strip path))))
  /\ new_events (CheckGmsh.finalize_options h) s
     = (Announce ERROR gmsh_probe_announcement
        :: CheckOutput argv
        :: (if path_exists h (PyStr.strip path) then []
            else [Announce FATAL
                    (Dist.not_a_path_msg "gmsh_bin_path" (PyStr.strip path))]))%list.
Proof.
  intros O A L. unfold new_events, outcome, final.
  rewrite (gmsh_finalize_without_override h s O), gmsh_locate_by_platform, A, L.
  rewrite strip_line_feed.
  destruct (path_exists h (PyStr.strip path)) eqn:E.
  - rewrite assert_path_existing by exact E. cbn.
    repeat rewrite <- app_assoc. rewrite skipn_length_app. auto.
  - rewrite assert_path_missing by exact E. cbn.
    repeat rewrite <- app_assoc. rewrite skipn_length_app. auto.
Qed.

Lemma gmsh_finalize_stores_stripped_lookup_witness :
  check_gmsh_self (final (CheckGmsh.finalize_options linux_host) fresh_state)
  = Some (PyStr.strip "/usr/bin/gmsh")
  /\ outcome (CheckGmsh.finalize_options linux_host) fresh_state
     = (if path_exists linux_host (PyStr.strip "/usr/bin/gmsh") then inr tt
        else inl (DistutilsSetupError
                    (Dist.not_a_path_msg "gmsh_bin_path" (PyStr.strip "/usr/bin/gmsh"))))
  /\ new_events (CheckGmsh.finalize_options linux_host) fresh_state
     = (Announce ERROR gmsh_probe_announcement
        :: CheckOutput ["which"; "gmsh"]
        :: (if path_exists linux_host (PyStr.strip "/usr/bin/gmsh") then []
            else [Announce FATAL
                    (Dist.not_a_path_msg "gmsh_bin_path"
                       (PyStr.strip "/usr/bin/gmsh"))]))%list.
Proof.
  apply (gmsh_finalize_stores_stripped_lookup linux_host fresh_state
           ["which"; "gmsh"] "/usr/bin/gmsh"); reflexivity.
Defined.

(* ===================================================================== *)
(** ** More on the derived root of qgis *)
(* ===================================================================== *)

Lemma join_keeps_leading_sep (a b : string) :
  PosixPath.startswith_sep a = true ->
  PosixPath.startswith_sep (PosixPath.join a b) = true.
Proof.
  intros A. unfold PosixPath.join.
  destruct (PosixPath.startswith_sep b) eqn:B; [exact B|].
  destruct a as [|c a]; [discriminate A|].
  destruct (String.eqb (String c a) EmptyString || PosixPath.endswith_sep (String c a));
    rewrite append_cons; exact A.
Qed.

Lemma walk_keeps_leading_sep (pairs : list (string * string)) (root : string) :
  PosixPath.startswith_sep root = true ->
  PosixPath.startswith_sep (CheckQgis.walk root pairs) = true.
Proof.
  revert root. induction pairs as [|[x y] pairs IH]; intros root R; cbn.
  - exact R.
  - destruct (String.eqb x y); [|exact R].
    apply IH, join_keeps_leading_sep, R.
Qed.

Lemma walk_symmetric (xs ys : list string) (root : string) :
  CheckQgis.walk root (combine xs ys) = CheckQgis.walk root (combine ys xs).
Proof.
  revert ys root. induction xs as [|x xs IH]; intros [|y ys] root; try reflexivity.
  cbn. rewrite (String.eqb_sym y x).
  destruct (String.eqb_spec x y) as [->|N]; [apply IH | reflexivity].
Qed.

(** X11.  Whatever the two paths are (relative, empty, with doubled
    slashes), the root that [CheckQgis.finalize_options] derives is an
    absolute path: it starts with '/'.  It does not depend on which of the
    two paths is the module path and which the executable path. *)
Theorem derived_qgis_root_is_absolute_and_symmetric (first out : string) :
  PosixPath.startswith_sep (CheckQgis.derive_qgis_path first out) = true
  /\ CheckQgis.derive_qgis_path first out = CheckQgis.derive_qgis_path out first.
Proof.
  unfold CheckQgis.derive_qgis_path. split.
  - apply walk_keeps_leading_sep. reflexivity.
  - apply walk_symmetric.
Qed.

(* ===================================================================== *)
(** ** [os.path.splitext], which names the egg-info argument *)
(* ===================================================================== *)

Lemma append_empty_r (s : string) : s ++ EmptyString = s.
Proof.
  induction s as [|c s IH]; [reflexivity|]. rewrite append_cons, IH. reflexivity.
Qed.

Lemma substring_whole (p : string) (m : nat) :
  String.length p <= m -> substring 0 m p = p.
Proof.
  revert m. induction p as [|c p IH]; intros m L.
  - destruct m; reflexivity.
  - destruct m as [|m]; cbn in L; [lia|]. cbn. rewrite IH by lia. reflexivity.
Qed.

Lemma substring_split (p : string) (n m : nat) :
  String.length p - n <= m -> substring 0 n p ++ substring n m p = p.
Proof.
  revert n m. induction p as [|c p IH]; intros n m L.
  - destruct n, m; reflexivity.
  - destruct n as [|n].
    + cbn in L. change (substring 0 0 (String c p)) with EmptyString.
      rewrite substring_whole by (cbn; lia). reflexivity.
    + cbn in L. cbn [substring]. rewrite append_cons, IH by lia. reflexivity.
Qed.

Lemma slice_split (p : string) (d : Z) :
  PyStr.slice p 0 d ++ PyStr.slice p d (Z.of_nat (String.length p)) = p.
Proof.
  unfold PyStr.slice. rewrite Z.sub_0_r. change (Z.to_nat 0) with 0.
  apply substring_split. lia.
Qed.

Lemma splitext_scan_round_trip (fuel : nat) (p : string) (i d : Z) :
  fst (PosixPath.splitext_scan fuel p i d) ++ snd (PosixPath.splitext_scan fuel p i d) = p.
Proof.
  revert i. induction fuel as [|fuel IH]; intros i; cbn [PosixPath.splitext_scan].
  - apply append_empty_r.
  - destruct (i <? d)%Z; [|apply append_empty_r].
    destruct (negb _); [apply slice_split | apply IH].
Qed.

Lemma rfind_from_absent (c : ascii) (s : string) (i last : Z) :
  PyStr.contains_char c s = false -> PyStr.rfind_from c s i last = last.
Proof.
  revert i last. induction s as [|d s IH]; intros i last N; [reflexivity|].
  change (Ascii.eqb c d || PyStr.contains_char c s = false) in N.
  apply orb_false_elim in N as [Nd Ns].
  cbn [PyStr.rfind_from]. rewrite Nd. apply IH. exact Ns.
Qed.

Lemma rfind_from_lower_bound (c : ascii) (s : string) (i last : Z) :
  (last <= i)%Z -> (last <= PyStr.rfind_from c s i last)%Z.
Proof.
  revert i last. induction s as [|d s IH]; intros i last L; cbn [PyStr.rfind_from].
  - lia.
  - destruct (Ascii.eqb c d).
    + specialize (IH (i + 1)%Z i). lia.
    + apply IH. lia.
Qed.

(** X12.  [os.path.splitext] as the writers use it: root and extension put
    together give the name back, for every name; and a name without a
    period is its own root, so the argument name of an egg-info file
    without extension is the file name. *)
Theorem splitext_round_trip (p : string) :
  fst (PosixPath.splitext p) ++ snd (PosixPath.splitext p) = p
  /\ (PyStr.contains_char PosixPath.EXTSEP p = false ->
      PosixPath.splitext p = (p, EmptyString)).
Proof.
  unfold PosixPath.splitext. split.
  - destruct (_ <? _)%Z; [apply splitext_scan_round_trip | apply append_empty_r].
  - intros N. unfold PyStr.rfind at 2. rewrite (rfind_from_absent _ _ _ _ N).
    pose proof (rfind_from_lower_bound PosixPath.SEP p 0 (-1) ltac:(lia)) as L.
    unfold PyStr.rfind. destruct (Z.ltb_spec (PyStr.rfind_from PosixPath.SEP p 0 (-1)) (-1));
      [lia | reflexivity].
Qed.

Lemma splitext_round_trip_witness :
  PosixPath.splitext "AUTHORS" = ("AUTHORS", EmptyString).
Proof.
  apply (proj2 (splitext_round_trip "AUTHORS")). reflexivity.
Defined.

(* ===================================================================== *)
(** ** The other egg-info writers *)
(* ===================================================================== *)

Lemma qgis_run_returns_writes_path (h : Host) (s : State) (p : string) :
  check_qgis_self s = Some p ->
  outcome (CheckQgis.run h) s = inr tt ->
  Distribution.qgis_path (distribution (final (CheckQgis.run h) s)) = Some p.
Proof.
  intros Eself. unfold CheckQgis.run. run_monad. rewrite Eself. cbn.
  destruct (CheckQgis.verify h p _) as [[e'|[]] s']; cbn.
  - destruct (is_ModuleNotFoundError e'); cbn; intros E;
      [reflexivity | discriminate E].
  - reflexivity.
Qed.

Lemma write_gmsh_bin_path_events (basename filename : string) (s : State) (p : string) :
  Distribution.gmsh_bin_path (distribution s) = Some p ->
  new_events (EggInfo.write_gmsh_bin_path basename filename) s
  = if String.eqb p EmptyString then []
    else [WriteOrDeleteFile (fst (PosixPath.splitext basename)) filename p].
Proof.
  intros D. unfold EggInfo.write_gmsh_bin_path. run_monad. rewrite D.
  destruct p as [|c p]; cbn.
  - apply skipn_length_self.
  - apply skipn_length_app.
Qed.

Lemma write_qgis_path_events (basename filename : string) (s : State) (p : string) :
  Distribution.qgis_path (distribution s) = Some p ->
  new_events (EggInfo.write_qgis_path basename filename) s
  = if String.eqb p EmptyString then []
    else [WriteOrDeleteFile (fst (PosixPath.splitext basename)) filename p].
Proof.
  intros D. unfold EggInfo.write_qgis_path. run_monad. rewrite D.
  destruct p as [|c p]; cbn.
  - apply skipn_length_self.
  - apply skipn_length_app.
Qed.

(** X13.  The path writers write what [run] stored.  After a
    [CheckGmsh.run] that returned, [write_gmsh_bin_path] hands the path in
    the command attribute (the binary that was started) to
    [write_or_delete_file], and after a [CheckQgis.run] that returned,
    [write_qgis_path] hands over the path of the command; except that an
    empty path is falsy, and then nothing is written. *)
Theorem path_writers_write_what_run_stored
  (h : Host) (s : State) (basename filename : string) :
  (outcome (CheckGmsh.run h) s = inr tt ->
   exists binary,
     check_gmsh_self (final (CheckGmsh.run h) s) = Some binary
     /\ new_events (EggInfo.write_gmsh_bin_path basename filename)
          (final (CheckGmsh.run h) s)
        = if String.eqb binary EmptyString then []
          else [WriteOrDeleteFile (fst (PosixPath.splitext basename)) filename binary])
  /\ (forall p,
        check_qgis_self s = Some p ->
        outcome (CheckQgis.run h) s = inr tt ->
        new_events (EggInfo.write_qgis_path basename filename)
          (final (CheckQgis.run h) s)
        = if String.eqb p EmptyString then []
          else [WriteOrDeleteFile (fst (PosixPath.splitext basename)) filename p]).
Proof.
  split.
  - intros R. destruct (gmsh_run_returns_writes_path h s R) as [D N].
    destruct (check_gmsh_self (final (CheckGmsh.run h) s)) as [binary|] eqn:Eself;
      [|contradiction N; reflexivity].
    exists binary. split; [reflexivity|].
    apply write_gmsh_bin_path_events. exact D.
  - intros p Eself R. apply write_qgis_path_events.
    apply (qgis_run_returns_writes_path h s p Eself R).
Qed.

Lemma path_writers_write_what_run_stored_witness :
  (exists binary,
     check_gmsh_self
       (final (CheckGmsh.run linux_host)
          (set_check_gmsh_self (Some "/usr/bin") fresh_state)) = Some binary
     /\ new_events (EggInfo.write_gmsh_bin_path "gmsh_bin_path.txt" "egg/gmsh_bin_path.txt")
          (final (CheckGmsh.run linux_host)
             (set_check_gmsh_self (Some "/usr/bin") fresh_state))
        = if String.eqb binary EmptyString then []
          else [WriteOrDeleteFile (fst (PosixPath.splitext "gmsh_bin_path.txt"))
                  "egg/gmsh_bin_path.txt" binary])
  /\ new_events (EggInfo.write_qgis_path "qgis_path.txt" "egg/qgis_path.txt")
       (final (CheckQgis.run linux_host)
          (set_check_qgis_self (Some "/usr") fresh_state))
     = [WriteOrDeleteFile (fst (PosixPath.splitext "qgis_path.txt"))
          "egg/qgis_path.txt" "/usr"].
Proof.
  split.
  - apply (proj1 (path_writers_write_what_run_stored linux_host
                    (set_check_gmsh_self (Some "/usr/bin") fresh_state)
                    "gmsh_bin_path.txt" "egg/gmsh_bin_path.txt")).
    reflexivity.
  - apply (proj2 (path_writers_write_what_run_stored linux_host
                    (set_check_qgis_self (Some "/usr") fresh_state)
                    "qgis_path.txt" "egg/qgis_path.txt") "/usr"); reflexivity.
Defined.

(** X14.  On a distribution whose path attribute is falsy, which is
    [None] or the empty string and nothing else, the path writer returns
    without calling [write_or_delete_file], and changes nothing. *)
Theorem path_writers_skip_absent_paths (basename filename : string) (s : State) :
  (EggInfo.truthy (Distribution.gmsh_bin_path (distribution s)) = false ->
   EggInfo.write_gmsh_bin_path basename filename s = (inr tt, s))
  /\ (EggInfo.truthy (Distribution.qgis_path (distribution s)) = false ->
      EggInfo.write_qgis_path basename filename s = (inr tt, s))
  /\ (forall value,
        EggInfo.truthy value = false <-> value = None \/ value = Some EmptyString).
Proof.
  unfold EggInfo.write_gmsh_bin_path, EggInfo.write_qgis_path. run_monad.
  split; [|split].
  - intros T. rewrite T. reflexivity.
  - intros T. rewrite T. reflexivity.
  - intros [[|c v]|]; cbn; split; intros X; auto;
      try discriminate X; destruct X as [X|X]; discriminate X.
Qed.

Lemma path_writers_skip_absent_paths_witness :
  EggInfo.write_gmsh_bin_path "gmsh_bin_path.txt" "egg/gmsh_bin_path.txt"
    (set_distribution quiet_distribution fresh_state)
  = (inr tt, set_distribution quiet_distribution fresh_state)
  /\ EggInfo.write_qgis_path "qgis_path.txt" "egg/qgis_path.txt"
       (set_distribution quiet_distribution fresh_state)
     = (inr tt, set_distribution quiet_distribution fresh_state).
Proof.
  split.
  - apply (proj1 (path_writers_skip_absent_paths "gmsh_bin_path.txt"
                    "egg/gmsh_bin_path.txt"
                    (set_distribution quiet_distribution fresh_state))).
    reflexivity.
  - apply (proj1 (proj2 (path_writers_skip_absent_paths "qgis_path.txt"
                           "egg/qgis_path.txt"
                           (set_distribution quiet_distribution fresh_state)))).
    reflexivity.
Defined.

(** X15.  The license writer and the author writer read the file named by
    [basename] in the working directory.  Switched on, they hand its text
    to [write_or_delete_file] as it is, and when the file cannot be read
    the exception of [open] goes on to the caller and nothing is written.
    Switched off, they return without needing the file.  The git-sha
    writer switched off returns without looking at the repository. *)
Theorem file_writers_copy_or_propagate
  (h : Host) (fs : LocalFiles) (basename filename : string) (s : State) :
  (Distribution.include_full_license (distribution s) = true ->
   (forall text,
      open_read fs basename = inr text ->
      EggInfo.write_full_license fs basename filename s
      = (inr tt,
         add_event (WriteOrDeleteFile (fst (PosixPath.splitext basename)) filename text) s))
   /\ (forall e,
         open_read fs basename = inl e ->
         EggInfo.write_full_license fs basename filename s = (inl e, s)))
  /\ (Distribution.include_author_ids (distribution s) = true ->
      (forall text,
         open_read fs basename = inr text ->
         EggInfo.write_author_ids fs basename filename s
         = (inr tt,
            add_event (WriteOrDeleteFile (fst (PosixPath.splitext basename)) filename text) s))
      /\ (forall e,
            open_read fs basename = inl e ->
            EggInfo.write_author_ids fs basename filename s = (inl e, s)))
  /\ (Distribution.include_full_license (distribution s) = false ->
      EggInfo.write_full_license fs basename filename s = (inr tt, s))
  /\ (Distribution.include_author_ids (distribution s) = false ->
      EggInfo.write_author_ids fs basename filename s = (inr tt, s))
  /\ (Distribution.include_git_sha_key (distribution s) = false ->
      EggInfo.write_git_sha_key h basename filename s = (inr tt, s)).
Proof.
  unfold EggInfo.write_full_license, EggInfo.write_author_ids,
    EggInfo.write_git_sha_key. run_monad.
  split; [|split; [|split; [|split]]]; intros E; rewrite E;
    try reflexivity;
    (split; intros x O; cbn; rewrite O; reflexivity).
Qed.

Lemma file_writers_copy_or_propagate_witness :
  EggInfo.write_full_license files_with_license "LICENSE" "egg/LICENSE" fresh_state
  = (inr tt,
     add_event (WriteOrDeleteFile (fst (PosixPath.splitext "LICENSE")) "egg/LICENSE"
                  "GNU GENERAL PUBLIC LICENSE") fresh_state)
  /\ EggInfo.write_author_ids files_with_license "AUTHORS.md" "egg/AUTHORS.md" fresh_state
     = (inl (OSError ("No such file or directory: " ++ PyStr.repr "AUTHORS.md")),
        fresh_state)
  /\ EggInfo.write_author_ids files_with_license "AUTHORS.md" "egg/AUTHORS.md"
       (set_distribution quiet_distribution fresh_state)
     = (inr tt, set_distribution quiet_distribution fresh_state)
  /\ EggInfo.write_git_sha_key host_with_broken_tools "git_sha_key.txt"
       "egg/git_sha_key.txt" (set_distribution quiet_distribution fresh_state)
     = (inr tt, set_distribution quiet_distribution fresh_state).
Proof.
  split; [|split; [|split]].
  - apply (proj1 (proj1 (file_writers_copy_or_propagate linux_host files_with_license
                           "LICENSE" "egg/LICENSE" fresh_state) eq_refl));
      reflexivity.
  - apply (proj2 (proj1 (proj2 (file_writers_copy_or_propagate linux_host
                                  files_with_license "AUTHORS.md" "egg/AUTHORS.md"
                                  fresh_state)) eq_refl));
      reflexivity.
  - apply (proj1 (proj2 (proj2 (proj2 (file_writers_copy_or_propagate linux_host
                                         files_with_license "AUTHORS.md" "egg/AUTHORS.md"
                                         (set_distribution quiet_distribution fresh_state)))))).
    reflexivity.
  - apply (proj2 (proj2 (proj2 (proj2 (file_writers_copy_or_propagate
                                         host_with_broken_tools files_with_license
                                         "git_sha_key.txt" "egg/git_sha_key.txt"
                                         (set_distribution quiet_distribution fresh_state)))))).
    reflexivity.
Defined.

(* ===================================================================== *)
(** ** [check_env] of [setup.py] *)
(* ===================================================================== *)

(** The gmsh part of [check_env] is the probe of [CheckGmsh], with the
    path it finds dropped. *)
Lemma setup_locate_gmsh_is_gmsh_locate (h : Host) (s : State) :
  Setup.locate_gmsh h s
  = match CheckGmsh.locate h s with
    | (inl e, s') => (inl e, s')
    | (inr _, s') => (inr tt, s')
    end.
Proof.
  unfold Setup.locate_gmsh, CheckGmsh.locate. run_monad.
  destruct (String.eqb (platform_system h) "Linux"
            || String.eqb (platform_system h) "Darwin"); cbn.
  - destruct (check_output h ["which"; "gmsh"]); cbn; [reflexivity|].
    destruct (String.eqb (platform_system h) "Windows"); cbn; [|reflexivity].
    destruct (check_output h ["where.exe"; "gmsh"]); reflexivity.
  - destruct (String.eqb (platform_system h) "Windows"); cbn; [|reflexivity].
    destruct (check_output h ["where.exe"; "gmsh"]); reflexivity.
Qed.

(** [check_env], by what the host answers. *)
Lemma check_env_by_host (h : Host) (s : State) :
  Setup.check_env h s
  = match import_qgis h with
    | inl e =>
        (inl (if is_ModuleNotFoundError e then qgis_not_installed_error else e),
         add_event (ImportModule "qgis") s)
    | inr pkg =>
        match qgis__path__ pkg with
        | [] => (inl (IndexError "list index out of range"),
                 add_event (ImportModule "qgis") s)
        | _ :: _ =>
            match gmsh_lookup_argv (platform_system h) with
            | None => (inr tt, add_event (ImportModule "qgis") s)
            | Some argv =>
                match check_output h argv with
                | inl e =>
                    (inl (if is_CalledProcessError e then gmsh_not_located_error else e),
                     add_event (CheckOutput argv) (add_event (ImportModule "qgis") s))
                | inr _ =>
                    (inr tt,
                     add_event (CheckOutput argv) (add_event (ImportModule "qgis") s))
                end
            end
        end
    end.
Proof.
  unfold Setup.check_env. run_monad. cbn.
  destruct (import_qgis h) as [e|pkg]; cbn.
  - destruct (is_ModuleNotFoundError e); reflexivity.
  - destruct (qgis__path__ pkg) as [|first rest]; cbn; [reflexivity|].
    rewrite setup_locate_gmsh_is_gmsh_locate, gmsh_locate_by_platform.
    destruct (gmsh_lookup_argv (platform_system h)) as [argv|]; [|reflexivity].
    destruct (check_output h argv) as [e|out]; [|reflexivity].
    destruct (is_CalledProcessError e); reflexivity.
Qed.

Lemma gmsh_lookup_argv_known (platform : string) :
  known_platform platform = true <-> gmsh_lookup_argv platform <> None.
Proof.
  unfold known_platform, gmsh_lookup_argv.
  destruct (String.eqb platform "Windows");
    destruct (String.eqb platform "Linux" || String.eqb platform "Darwin");
    cbn; split; intros X; try reflexivity; try discriminate;
    contradiction X; reflexivity.
Qed.

(** X16.  [check_env] raises the same two errors as the locators: the
    [DistutilsPlatformError] of [CheckQgis.finalize_options] when the
    package [qgis] is not found, before gmsh is looked for at all, and the
    [DistutilsSetupError] of [CheckGmsh.finalize_options] when the lookup of
    gmsh exits with a nonzero status.  It assigns nothing: no attribute of
    the distribution or of a command. *)
Theorem check_env_raises_the_errors_of_the_locators
  (h : Host) (s : State) :
  (forall name,
     import_qgis h = inl (ModuleNotFoundError name) ->
     outcome (Setup.check_env h) s = inl qgis_not_installed_error
     /\ new_events (Setup.check_env h) s = [ImportModule "qgis"])
  /\ (forall pkg first rest argv returncode cmd,
        import_qgis h = inr pkg ->
        qgis__path__ pkg = first :: rest ->
        gmsh_lookup_argv (platform_system h) = Some argv ->
        check_output h argv = inl (CalledProcessError returncode cmd) ->
        outcome (Setup.check_env h) s = inl gmsh_not_located_error
        /\ new_events (Setup.check_env h) s = [ImportModule "qgis"; CheckOutput argv])
  /\ distribution (final (Setup.check_env h) s) = distribution s
  /\ check_gmsh_self (final (Setup.check_env h) s) = check_gmsh_self s
  /\ check_qgis_self (final (Setup.check_env h) s) = check_qgis_self s.
Proof.
  unfold outcome, new_events, final. rewrite check_env_by_host.
  split; [|split].
  - intros name I. rewrite I. cbn. rewrite skipn_length_app. auto.
  - intros pkg first rest argv rc cmd I P A L. rewrite I, P, A, L. cbn.
    repeat rewrite <- app_assoc. rewrite skipn_length_app. auto.
  - destruct (import_qgis h) as [e|pkg]; [cbn; auto|].
    destruct (qgis__path__ pkg) as [|first rest]; [cbn; auto|].
    destruct (gmsh_lookup_argv (platform_system h)) as [argv|]; [|cbn; auto].
    destruct (check_output h argv); cbn; auto.
Qed.

Lemma check_env_raises_the_errors_of_the_locators_witness :
  (outcome (Setup.check_env bare_host) fresh_state = inl qgis_not_installed_error
   /\ new_events (Setup.check_env bare_host) fresh_state = [ImportModule "qgis"])
  /\ (outcome (Setup.check_env host_without_qgis_executable) fresh_state
      = inl gmsh_not_located_error
      /\ new_events (Setup.check_env host_without_qgis_executable) fresh_state
         = [ImportModule "qgis"; CheckOutput ["which"; "gmsh"]]).
Proof.
  split.
  - apply (proj1 (check_env_raises_the_errors_of_the_locators bare_host fresh_state)
             "qgis").
    reflexivity.
  - apply (proj1 (proj2 (check_env_raises_the_errors_of_the_locators
                           host_without_qgis_executable fresh_state))
             {| qgis__path__ := ["/usr/lib/gistoolkit"] |} "/usr/lib/gistoolkit" []
             ["which"; "gmsh"] 1%Z ["which"; "gmsh"]); reflexivity.
Defined.

(** X17.  What [check_env] checks of gmsh is what the probe of
    [CheckGmsh.finalize_options] checks: when [check_env] returns on one of
    the three known platforms, the probe of [CheckGmsh] finds a path on the
    same host and no 'could not locate' error is raised.  On any other
    platform [check_env] looks for no gmsh at all and returns as soon as
    [qgis] imports, while [CheckGmsh.finalize_options] without an override
    raises [UnboundLocalError] on the same host. *)
Theorem check_env_and_the_gmsh_probe (h : Host) (s s' : State) :
  (outcome (Setup.check_env h) s = inr tt ->
   known_platform (platform_system h) = true ->
   exists out, outcome (CheckGmsh.locate h) s' = inr (Some out))
  /\ (outcome (Setup.check_env h) s = inr tt ->
      known_platform (platform_system h) = false ->
      override (check_gmsh_self s') (Distribution.gmsh_bin_path (distribution s')) = None ->
      new_events (Setup.check_env h) s = [ImportModule "qgis"]
      /\ outcome (CheckGmsh.finalize_options h) s'
         = inl (UnboundLocalError "gmsh_bin_path")).
Proof.
  unfold outcome, new_events, final. rewrite check_env_by_host. split.
  - intros R K. apply gmsh_lookup_argv_known in K.
    rewrite gmsh_locate_by_platform.
    destruct (import_qgis h) as [e|pkg]; [discriminate R|].
    destruct (qgis__path__ pkg) as [|first rest]; [discriminate R|].
    destruct (gmsh_lookup_argv (platform_system h)) as [argv|];
      [|contradiction K; reflexivity].
    destruct (check_output h argv) as [e|out]; [discriminate R|].
    exists out. reflexivity.
  - intros R K O.
    rewrite (gmsh_finalize_without_override h s' O),
      (gmsh_locate_unknown_platform h _ K).
    assert (A : gmsh_lookup_argv (platform_system h) = None).
    { destruct (gmsh_lookup_argv (platform_system h)) eqn:A; [|reflexivity].
      assert (X : known_platform (platform_system h) = true)
        by (apply gmsh_lookup_argv_known; rewrite A; discriminate).
      rewrite K in X. discriminate X. }
    rewrite A in *.
    destruct (import_qgis h) as [e|pkg]; [discriminate R|].
    destruct (qgis__path__ pkg) as [|first rest]; [discriminate R|].
    cbn. rewrite skipn_length_app. auto.
Qed.

Lemma check_env_and_the_gmsh_probe_witness :
  (exists out, outcome (CheckGmsh.locate linux_host) fresh_state = inr (Some out))
  /\ (new_events (Setup.check_env freebsd_host_without_gmsh) fresh_state
      = [ImportModule "qgis"]
      /\ outcome (CheckGmsh.finalize_options freebsd_host_without_gmsh) fresh_state
         = inl (UnboundLocalError "gmsh_bin_path")).
Proof.
  split.
  - apply (proj1 (check_env_and_the_gmsh_probe linux_host fresh_state fresh_state));
      reflexivity.
  - apply (proj2 (check_env_and_the_gmsh_probe freebsd_host_without_gmsh
                    fresh_state fresh_state)); reflexivity.
Defined.

(* ===================================================================== *)
(** ** [finalize_options] followed by [run] *)
(* ===================================================================== *)

(** What a [CheckGmsh.run] that returns has established. *)
Lemma gmsh_run_returns_checked (h : Host) (s : State) (p : string) :
  check_gmsh_self s = Some p ->
  outcome (CheckGmsh.run h) s = inr tt ->
  Distribution.gmsh_bin_path (distribution (final (CheckGmsh.run h) s))
  = Some (gmsh_binary h p)
  /\ (path_isdir h p = true -> path_isfile h (gmsh_binary h p) = true)
  /\ exists output, popen_wait h [gmsh_binary h p; "--version"] = inr (0%Z, output).
Proof.
  intros Eself. unfold CheckGmsh.run, gmsh_binary. run_monad. rewrite Eself. cbn.
  destruct (path_isdir h p) eqn:D; cbn.
  - destruct (path_isfile h (PosixPath.join p "gmsh")) eqn:F; cbn;
      [|intros R; discriminate R].
    destruct (popen_wait h _) as [e|[rc out]] eqn:P; cbn; [intros R; discriminate R|].
    destruct (Z.eqb_spec rc 0) as [->|N]; cbn; [|intros R; discriminate R].
    destruct (decode_utf8 h _) as [e|text]; cbn; [intros R; discriminate R|].
    intros _. split; [reflexivity|]. split; [auto|]. exists out. reflexivity.
  - rewrite ?Eself.
    destruct (popen_wait h _) as [e|[rc out]] eqn:P; cbn; [intros R; discriminate R|].
    destruct (Z.eqb_spec rc 0) as [->|N]; cbn; [|intros R; discriminate R].
    destruct (decode_utf8 h _) as [e|text]; cbn; [intros R; discriminate R|].
    intros _. split; [reflexivity|]. split; [intros X; discriminate X|].
    exists out. reflexivity.
Qed.

(** X18.  When [finalize_options] followed by [run] of [CheckGmsh] returns,
    the path written to the distribution has been checked all the way: the
    path [p] that [finalize_options] stored exists; the path in the
    distribution is [p], or [join(p, 'gmsh')] when [p] is a directory, and
    then it is a file; and that binary has exited with status 0 on
    [--version]. *)
Theorem gmsh_pipeline_stores_checked_path (h : Host) (s : State) :
  outcome (CheckGmsh.finalize_options h ;; CheckGmsh.run h) s = inr tt ->
  exists p,
    check_gmsh_self (final (CheckGmsh.finalize_options h) s) = Some p
    /\ path_exists h p = true
    /\ Distribution.gmsh_bin_path
         (distribution (final (CheckGmsh.finalize_options h ;; CheckGmsh.run h) s))
       = Some (gmsh_binary h p)
    /\ (path_isdir h p = true -> path_isfile h (gmsh_binary h p) = true)
    /\ exists output, popen_wait h [gmsh_binary h p; "--version"] = inr (0%Z, output).
Proof.
  intros R.
  assert (F : outcome (CheckGmsh.finalize_options h) s = inr tt).
  { unfold outcome, bind in *.
    destruct (CheckGmsh.finalize_options h s) as [[e|[]] s1];
      [discriminate R | reflexivity]. }
  destruct (gmsh_finalize_returns h s F) as (p & Eself & E).
  exists p. split; [exact Eself|]. split; [exact E|].
  assert (B : (CheckGmsh.finalize_options h ;; CheckGmsh.run h) s
              = CheckGmsh.run h (final (CheckGmsh.finalize_options h) s)).
  { unfold outcome, final, bind in *.
    destruct (CheckGmsh.finalize_options h s) as [[e|[]] s1];
      [discriminate F | reflexivity]. }
  unfold outcome, final in R |- *. rewrite B in R |- *.
  apply (gmsh_run_returns_checked h _ p Eself R).
Qed.

Lemma gmsh_pipeline_stores_checked_path_witness :
  exists p,
    check_gmsh_self (final (CheckGmsh.finalize_options linux_host) fresh_state) = Some p
    /\ path_exists linux_host p = true
    /\ Distribution.gmsh_bin_path
         (distribution
            (final (CheckGmsh.finalize_options linux_host ;; CheckGmsh.run linux_host)
               fresh_state))
       = Some (gmsh_binary linux_host p)
    /\ (path_isdir linux_host p = true -> path_isfile linux_host (gmsh_binary linux_host p) = true)
    /\ exists output,
         popen_wait linux_host [gmsh_binary linux_host p; "--version"] = inr (0%Z, output).
Proof.
  apply (gmsh_pipeline_stores_checked_path linux_host fresh_state).
  reflexivity.
Defined.
